(** * Shift dashboard (docs/app.js): reconciliation and classification core

    A shallow embedding of the pure logic of [docs/app.js]: the
    classification of free-text details, the merge of feed days with the
    locally stored manual entries, the resolution of leave requests, the
    projections used by the day detail, the list and the CSV export, the
    annual leave balance and the creation of a manual entry; then the
    sorted list of loaded days, the upcoming days, the leave list, the
    calendar grid with its day detail and navigation, and the years of
    service.

    Conventions of the embedding.
    - A JavaScript value that is a string, [null] or [undefined] is a
      [jsval]; [===] on such values is decidable equality.
    - JavaScript numbers are IEEE 754 binary64 values: Rocq's primitive
      [float].  Minute counts, day counts and millisecond stamps are
      integers far below 2^53, on which binary64 arithmetic is exact; they
      are computed in [Z].
    - Strings are sequences of 8-bit characters; [toLowerCase] folds the
      ASCII letters and leaves every other character alone.
    - A JavaScript object used as a dictionary is a [gmap string _] where
      only lookups and the number of keys are observed, and the list of
      its entries in enumeration order where the code iterates over it.
      Such an object inherits the members of [Object.prototype]: where
      the code looks up a status or a leave type in a table, the
      inherited names are modelled ([Object_prototype_names]), the text
      of an inherited member being a parameter; an assignment to the key
      [__proto__] adds no key. *)

From Stdlib Require Import ZArith Ascii String PrimFloat Uint63 Sorted.
From stdpp Require Import base list strings gmap pretty.

Local Open Scope string_scope.
Local Open Scope list_scope.
Local Open Scope Z_scope.

(** ** JavaScript values and string primitives *)

Inductive jsval : Type :=
  | undefined
  | null
  | str (s : string).

#[global] Instance jsval_eq_dec : EqDecision jsval.
Proof. solve_decision. Defined.

(** The string a truthy string value holds: [null], [undefined] and the
    empty string are falsy. *)
Definition as_truthy (v : jsval) : option string :=
  match v with
  | str s => if bool_decide (s = "") then None else Some s
  | _ => None
  end.

Definition truthy (v : jsval) : bool :=
  match as_truthy v with Some _ => true | None => false end.

(** Template-literal conversion [`${v}`]. *)
Definition template (v : jsval) : string :=
  match v with
  | undefined => "undefined"
  | null => "null"
  | str s => s
  end.

Definition lower_ascii (c : ascii) : ascii :=
  let n := N_of_ascii c in
  if ((65 <=? n) && (n <=? 90))%N then ascii_of_N (n + 32) else c.

Fixpoint toLowerCase (s : string) : string :=
  match s with
  | EmptyString => EmptyString
  | String c r => String (lower_ascii c) (toLowerCase r)
  end.

(** [s.startsWith(p)] *)
Fixpoint startsWith (s p : string) : bool :=
  match p with
  | EmptyString => true
  | String a p' =>
      match s with
      | EmptyString => false
      | String b s' => Ascii.eqb a b && startsWith s' p'
      end
  end.

(** [s.includes(sub)] *)
Fixpoint includes (s sub : string) : bool :=
  startsWith s sub ||
  match s with
  | EmptyString => false
  | String _ r => includes r sub
  end.

(** [a < b] and [a <= b] on strings: by character code, a proper prefix
    first. *)
Fixpoint str_ltb (a b : string) : bool :=
  match a, b with
  | _, EmptyString => false
  | EmptyString, String _ _ => true
  | String x a', String y b' =>
      (N_of_ascii x <? N_of_ascii y)%N
      || ((N_of_ascii x =? N_of_ascii y)%N && str_ltb a' b')
  end.

Definition str_leb (a b : string) : bool := negb (str_ltb b a).

(** The names that a plain object ([{}] or an object literal) inherits
    from [Object.prototype].  A lookup [o[name]] with one of them finds
    the inherited member, a function or for [__proto__] the prototype
    itself, unless [o] has a key of that name; [inherited_text name], a
    parameter of the definitions that need it, is the string that member
    converts to (the source text of a built-in function, which the
    platform chooses). *)
Definition Object_prototype_names : list string :=
  ["constructor"; "__defineGetter__"; "__defineSetter__"; "hasOwnProperty";
   "__lookupGetter__"; "__lookupSetter__"; "isPrototypeOf";
   "propertyIsEnumerable"; "toString"; "valueOf"; "__proto__";
   "toLocaleString"].

(** ** Classification of absence and presence details (app.js 33-70) *)

Definition getAssenzaAbbr (dettaglio : jsval) : string :=
  match as_truthy dettaglio with
  | None => "Riposo"
  | Some s =>
      let d := toLowerCase s in
      if includes d "riposo settimanale" then "RS"
      else if includes d "riposo festivita" then "RF"
      else if includes d "recupero" && includes d "riposo" && includes d "settimanale" then "RRS"
      else if includes d "recupero" && includes d "riposo" && includes d "festivita" then "RRF"
      else if includes d "recupero" && includes d "ore" then "RO"
      else if includes d "licenza ordinaria" then "LO"
      else if includes d "licenza straordinaria" then "LS"
      else "Riposo"
  end.

Definition getPresenzaAbbr (dettaglio : jsval) : string :=
  match as_truthy dettaglio with
  | None => "Servizio"
  | Some s =>
      let d := toLowerCase s in
      if includes d "esterno" then "Esterno"
      else if includes d "operativ" then "Operativo"
      else if includes d "istituzional" then "Istituz."
      else if includes d "pratiche" || includes d "disbrigo" || includes d "ufficio" then "Ufficio"
      else "Servizio"
  end.

Definition getAssenzaLabel (dettaglio : jsval) : string :=
  match as_truthy dettaglio with
  | None => "Riposo"
  | Some s =>
      let d := toLowerCase s in
      if includes d "riposo settimanale" then "Riposo Settimanale"
      else if includes d "riposo festivita" then "Riposo Festivita'"
      else if includes d "recupero" && includes d "riposo" && includes d "settimanale" then "Rec. Riposo Sett."
      else if includes d "recupero" && includes d "riposo" && includes d "festivita" then "Rec. Riposo Fest."
      else if includes d "recupero" && includes d "ore" then "Recupero Ore"
      else if includes d "licenza ordinaria" then "Licenza Ordinaria"
      else if includes d "licenza straordinaria" then "Licenza Straord."
      else "Riposo"
  end.

(** ** Data model: shifts, days, leave requests *)

Module Turno.
Record t : Type := mk {
  id : jsval;
  tipo : jsval;
  dettaglio : jsval;
  matricola : jsval;
  data : jsval;
  ora_inizio : jsval;
  ora_fine : jsval;
  durata_ore : option float;
  is_straordinario : bool;
  ore_ordinarie : option float;
  ore_straordinario : option float;
  email_date : jsval;
  email_id : jsval;
  stato : jsval
}.
End Turno.

(** A field that the feed may leave out is [undefined] ([None] for a
    number); [turni] left out reads as the empty array in every use
    ([g.turni || []], [g.turni?.[0]]). *)
Module Giornata.
Record t : Type := mk {
  data : jsval;
  turni : list Turno.t;
  ore_totali : option float;
  ore_ordinarie : option float;
  ore_straordinario : option float;
  is_licenza : bool;
  tipo_licenza : jsval;
  isManual : bool
}.
End Giornata.

(** One status record of a leave request; [tipo] is always present in
    the feed. *)
Module Licenza.
Record t : Type := mk {
  tipo : string;
  data_inizio : jsval;
  data_fine : jsval;
  stato : jsval
}.
End Licenza.

(** ** Numbers *)

Definition Z2f (z : Z) : float :=
  if z <? 0 then PrimFloat.opp (PrimFloat.of_uint63 (Uint63.of_Z (- z)))
  else PrimFloat.of_uint63 (Uint63.of_Z z).

Definition two52 : float := 4503599627370496%float.

(** [Math.floor]: below 2^52 in magnitude, adding and removing 2^52 rounds
    to a neighbouring integer, corrected downwards; from 2^52 on every
    binary64 value is an integer.  NaN and the infinities are returned. *)
Definition Math_floor (x : float) : float :=
  if PrimFloat.ltb (PrimFloat.abs x) two52 then
    let t := if PrimFloat.ltb x 0 then ((x - two52) + two52)%float
             else ((x + two52) - two52)%float in
    if PrimFloat.ltb x t then (t - 1)%float else t
  else x.

(** [Math.round]: the nearest integer, a tie going up (the sign of a zero
    result is not tracked). *)
Definition Math_round (x : float) : float :=
  let f := Math_floor x in
  if PrimFloat.leb 0.5 (x - f) then (f + 1)%float else f.

Definition Math_min (a b : float) : float :=
  if PrimFloat.is_nan a || PrimFloat.is_nan b then PrimFloat.nan
  else if PrimFloat.ltb a b then a else b.

Definition Math_max (a b : float) : float :=
  if PrimFloat.is_nan a || PrimFloat.is_nan b then PrimFloat.nan
  else if PrimFloat.ltb a b then b else a.

(** [x || 0] on a number that may be missing. *)
Definition num_or_zero (x : option float) : float :=
  match x with
  | Some v => if PrimFloat.is_nan v || PrimFloat.eqb v 0 then 0%float else v
  | None => 0%float
  end.

(** [x > 0] on a number that may be missing. *)
Definition num_pos (x : option float) : bool :=
  match x with
  | Some v => PrimFloat.ltb 0 v
  | None => false
  end.

(** [formatNumber] (app.js 819-821) *)
Definition formatNumber (num : float) : float :=
  (Math_round (num * 10) / 10)%float.

(** ** Reconciliation of the feed with the manual entries (app.js 170-186) *)

(** [manualEntries] is given by [Object.entries(manualEntries)]: the
    key/value pairs in enumeration order, keys pairwise distinct. *)
Abbreviation entries V := (list (string * V)) (only parsing).

Definition find_by_date (allGiornate : list Giornata.t) (dateStr : string)
  : option Giornata.t :=
  List.find (fun g => bool_decide (Giornata.data g = str dateStr)) allGiornate.

Definition merge_entry (allGiornate : list Giornata.t) (kv : string * Giornata.t)
  : list Giornata.t :=
  let '(dateStr, entry) := kv in
  match find_by_date allGiornate dateStr with
  | Some _ => allGiornate
  | None => allGiornate ++ [entry]
  end.

Definition mergeManualEntries (allGiornate : list Giornata.t)
    (manualEntries : entries Giornata.t) : list Giornata.t :=
  foldl merge_entry allGiornate manualEntries.

(** [manualEntries.hasOwnProperty(dateStr)]: the keys of the store
    itself (a store with a key [hasOwnProperty], which no date is, would
    make the call fail). *)
Definition isManualEntry (manualEntries : entries Giornata.t) (dateStr : string) : bool :=
  bool_decide (dateStr ∈ manualEntries.*1).

(** [o[k] = v] on the keys of an object: an existing key keeps its
    place, a new key goes last (keys that are array indices, which the
    platform enumerates first, do not occur: a key holds a date). *)
Fixpoint obj_set {V} (k : string) (v : V) (o : entries V) : entries V :=
  match o with
  | [] => [(k, v)]
  | (k', v') :: r => if bool_decide (k' = k) then (k, v) :: r else (k', v') :: obj_set k v r
  end.

(** [delete manualEntries[dateStr]] *)
Definition obj_delete {V} (k : string) (o : entries V) : entries V :=
  filter (fun kv => kv.1 ≠ k) o.

Definition obj_get {V} (k : string) (o : entries V) : option V :=
  snd <$> List.find (fun kv => bool_decide (kv.1 = k)) o.

(** The date-keyed map of the calendar grid (app.js 413-420). *)
Definition in_month (monthStr : string) (g : Giornata.t) : bool :=
  match as_truthy (Giornata.data g) with
  | Some d => startsWith d monthStr
  | None => false
  end.

Definition giornateMap (monthStr : string) (allGiornate : list Giornata.t)
  : gmap string Giornata.t :=
  foldl (fun m g => <[template (Giornata.data g) := g]> m) ∅
        (List.filter (in_month monthStr) allGiornate).

(** ** Projections of a day: day detail, list item, CSV row *)

Definition GIORNI : list string := ["Dom"; "Lun"; "Mar"; "Mer"; "Gio"; "Ven"; "Sab"].

(** [v || dflt] on a string value. *)
Definition str_or (v : jsval) (dflt : string) : string :=
  default dflt (as_truthy v).

(** [turno?.tipo === 'ASSENZA'] and [turno?.dettaglio]. *)
Definition is_assenza (turno : option Turno.t) : bool :=
  match turno with
  | Some t => bool_decide (Turno.tipo t = str "ASSENZA")
  | None => false
  end.

Definition dettaglio_of (turno : option Turno.t) : jsval :=
  match turno with
  | Some t => Turno.dettaglio t
  | None => undefined
  end.

(** The shifts of the day that are not marked "eliminato" (app.js 525). *)
Definition turniAttivi (giornata : Giornata.t) : list Turno.t :=
  filter (fun t => Turno.stato t ≠ str "eliminato") (Giornata.turni giornata).

(** The rows that [showDayDetail] writes for the day record (app.js
    523-574): a text row, a shift row (label, start, end, duration) or an
    hours row (label, number shown, whether marked as overtime). *)
Inductive detail_row : Type :=
  | row_text (label value : string)
  | row_turno (label : string) (ora_inizio ora_fine : jsval) (durata_ore : option float)
  | row_ore (label : string) (ore : float) (straord : bool).

Definition showDayDetail_rows (isManual : bool) (giornata : Giornata.t)
  : list detail_row :=
  let attivi := turniAttivi giornata in
  (if is_assenza (head attivi)
   then [row_text "Tipo" (getAssenzaLabel (dettaglio_of (head attivi)))]
   else
     imap (fun i t =>
             row_turno (if (1 <? length attivi)%nat
                        then "Turno " +:+ pretty (i + 1)%nat else "Orario")
                       (Turno.ora_inizio t) (Turno.ora_fine t) (Turno.durata_ore t))
          attivi
     ++ [row_ore "Ore Totali"
           (formatNumber (num_or_zero (Giornata.ore_totali giornata))) false;
         row_ore "Ore Ordinarie"
           (formatNumber (num_or_zero (Giornata.ore_ordinarie giornata))) false;
         row_ore "Straordinario"
           (formatNumber (num_or_zero (Giornata.ore_straordinario giornata)))
           (num_pos (Giornata.ore_straordinario giornata))])
  ++ (if isManual then [row_text "Fonte" "Inserito manualmente"] else []).

(** What [renderGiornataItem] shows (app.js 332-391), the date column
    apart. *)
Record giorno_item : Type := mk_item {
  tipoClass : string;
  tipoBadgeClass : string;
  tipoBadge : string;
  orario : string;
  straord : option float
}.

(** One line of the export (app.js 852-857), before the numbers are
    printed. *)
Record csv_row : Type := mk_row {
  col_data : string;
  col_giorno : string;
  col_tipo : string;
  col_ore_totali : float;
  col_ore_ordinarie : float;
  col_ore_straordinario : float
}.

Section Display.

(** [String.prototype.localeCompare] and the local weekday number of a
    date ([new Date(data).getDay()], [None] for an invalid date) belong
    to the platform and its locale and time zone. *)
Variable localeCompare : string → string → comparison.
Variable getDay : jsval → option nat.

Definition by_ora_inizio (a b : Turno.t) : comparison :=
  localeCompare (str_or (Turno.ora_inizio a) "") (str_or (Turno.ora_inizio b) "").

(** [Array.prototype.sort] is stable: a shift goes before the first one
    that compares greater. *)
Fixpoint insert_turno (x : Turno.t) (sorted : list Turno.t) : list Turno.t :=
  match sorted with
  | [] => [x]
  | y :: r =>
      match by_ora_inizio x y with
      | Lt => x :: y :: r
      | _ => y :: insert_turno x r
      end
  end.

Definition sort_turni (turni : list Turno.t) : list Turno.t :=
  foldl (fun sorted x => insert_turno x sorted) [] turni.

Definition straord_shown (g : Giornata.t) : option float :=
  if PrimFloat.ltb 0 (num_or_zero (Giornata.ore_straordinario g))
  then Some (formatNumber (num_or_zero (Giornata.ore_straordinario g)))
  else None.

Definition renderGiornataItem (g : Giornata.t) : giorno_item :=
  let turno := head (Giornata.turni g) in
  if Giornata.is_licenza g then
    mk_item "riposo" "riposo" "LO" "Licenza" (straord_shown g)
  else if is_assenza turno then
    mk_item "riposo" "riposo" (getAssenzaAbbr (dettaglio_of turno))
            (getAssenzaLabel (dettaglio_of turno)) (straord_shown g)
  else
    match turno with
    | Some t =>
        let sorted := sort_turni (Giornata.turni g) in
        mk_item "" "" (getPresenzaAbbr (Turno.dettaglio t))
          match head sorted, last sorted with
          | Some primo, Some ultimo =>
              template (Turno.ora_inizio primo) +:+ " - "
              +:+ template (Turno.ora_fine ultimo)
          | _, _ => ""
          end
          (straord_shown g)
    | None => mk_item "" "" "" "" (straord_shown g)
    end.

(** [renderServizi] (app.js 582-605): the filter, then at most 50 items. *)
Definition servizi_filter (filter : string) (g : Giornata.t) : bool :=
  let tipo := match head (Giornata.turni g) with
              | Some t => Turno.tipo t
              | None => undefined
              end in
  if bool_decide (filter = "presenza") then bool_decide (tipo = str "PRESENZA")
  else if bool_decide (filter = "assenza")
       then bool_decide (tipo = str "ASSENZA") || Giornata.is_licenza g
       else true.

Definition renderServizi (filter : string) (allGiornate : list Giornata.t)
  : list giorno_item :=
  renderGiornataItem <$> take 50 (List.filter (servizi_filter filter) allGiornate).

Definition exportCSV_row (g : Giornata.t) : csv_row :=
  mk_row (template (Giornata.data g))
         match getDay (Giornata.data g) with
         | Some n => default "undefined" (GIORNI !! n)
         | None => "undefined"
         end
         (str_or match head (Giornata.turni g) with
                 | Some t => Turno.tipo t
                 | None => undefined
                 end "N/D")
         (num_or_zero (Giornata.ore_totali g))
         (num_or_zero (Giornata.ore_ordinarie g))
         (num_or_zero (Giornata.ore_straordinario g)).

Definition exportCSV (allGiornate : list Giornata.t) : list csv_row :=
  exportCSV_row <$> allGiornate.

End Display.

(** ** Leave requests: the current record of each request (app.js 612-625) *)

Definition statoPriority : gmap string Z :=
  list_to_map [("Approvata", 5); ("Rifiutata", 4); ("Annullata", 3);
               ("Validata", 2); ("Presentata", 1)].

(** [a > b] on two values that are numbers or texts: numbers by size,
    two texts by character codes, and a number with a text never (the
    text of a function or of an object is no numeral and compares as
    NaN). *)
Definition js_gt (a b : Z + string) : bool :=
  match a, b with
  | inl x, inl y => x >? y
  | inr s, inr t => str_ltb t s
  | _, _ => false
  end.

Section Leave_requests.

Variable inherited_text : string → string.

(** [statoPriority[stato] || 0]: the number under one of the five keys of
    the table; for a status that is a name inherited from
    [Object.prototype] the inherited member, which is truthy, so that
    [|| 0] leaves it, and which [>] reads as its text; 0 for any other
    status and for a missing one. *)
Definition priority (stato : jsval) : Z + string :=
  match statoPriority !! template stato with
  | Some n => inl n
  | None =>
      if bool_decide (template stato ∈ Object_prototype_names)
      then inr (inherited_text (template stato))
      else inl 0
  end.

(** [`${l.tipo}_${l.data_inizio}`] *)
Definition licenza_key (l : Licenza.t) : string :=
  Licenza.tipo l +:+ "_" +:+ template (Licenza.data_inizio l).

(** One step of the loop of app.js 616-623.  The object [licenzeByKey]
    is kept as the map of its own keys: a key is the type, an underscore
    and the start date, and with start dates that hold no underscore it
    is none of the inherited names. *)
Definition dedup_step (licenzeByKey : gmap string Licenza.t) (l : Licenza.t)
  : gmap string Licenza.t :=
  if truthy (Licenza.data_inizio l) then
    match licenzeByKey !! licenza_key l with
    | None => <[licenza_key l := l]> licenzeByKey
    | Some existing =>
        if js_gt (priority (Licenza.stato l)) (priority (Licenza.stato existing))
        then <[licenza_key l := l]> licenzeByKey
        else licenzeByKey
    end
  else licenzeByKey.

Definition licenzeByKey (allLicenze : list Licenza.t) : gmap string Licenza.t :=
  foldl dedup_step ∅ allLicenze.

End Leave_requests.

(** ** Leave requests: the pending alert (app.js 676-701) *)

Definition is_pending (stato : jsval) : bool :=
  bool_decide (stato = str "Presentata") || bool_decide (stato = str "Validata").

Definition is_resolved (stato : jsval) : bool :=
  bool_decide (stato = str "Approvata") || bool_decide (stato = str "Annullata")
  || bool_decide (stato = str "Rifiutata").

Definition hasResolved (allLicenze : list Licenza.t) (l : Licenza.t) : bool :=
  existsb (fun x => bool_decide (Licenza.tipo x = Licenza.tipo l)
                    && bool_decide (Licenza.data_inizio x = Licenza.data_inizio l)
                    && is_resolved (Licenza.stato x)) allLicenze.

(** [pendingByDate[key] = l]: the object is kept as the map of its own
    keys; assigning to [__proto__] sets the prototype and adds no key. *)
Definition pending_step (allLicenze : list Licenza.t)
    (pendingByDate : gmap string Licenza.t) (l : Licenza.t) : gmap string Licenza.t :=
  if is_pending (Licenza.stato l) && truthy (Licenza.data_inizio l) then
    if negb (hasResolved allLicenze l) then
      if bool_decide (licenza_key l = "__proto__") then pendingByDate
      else <[licenza_key l := l]> pendingByDate
    else pendingByDate
  else pendingByDate.

Definition pendingByDate (allLicenze : list Licenza.t) : gmap string Licenza.t :=
  foldl (pending_step allLicenze) ∅ allLicenze.

(** [Object.keys(pendingByDate).length] and whether the alert is shown. *)
Definition pending_count (allLicenze : list Licenza.t) : nat :=
  size (pendingByDate allLicenze).

Definition alertLicenze_shown (allLicenze : list Licenza.t) : bool :=
  bool_decide (0 < pending_count allLicenze)%nat.

(** Dates are written [YYYY-MM-DD]: no underscore occurs in them. *)
Fixpoint no_underscore (s : string) : bool :=
  match s with
  | EmptyString => true
  | String c r => negb (Ascii.eqb c "_") && no_underscore r
  end.

Definition start_dates_plain (allLicenze : list Licenza.t) : Prop :=
  Forall (fun l => ∀ s, Licenza.data_inizio l = str s → no_underscore s = true)
         allLicenze.

(** The records of the request [(tipo, data_inizio)]. *)
Definition same_request (tipo data_inizio : string) (l : Licenza.t) : Prop :=
  Licenza.tipo l = tipo ∧ Licenza.data_inizio l = str data_inizio.

#[global] Instance same_request_dec t d l : Decision (same_request t d l).
Proof. unfold same_request. apply _. Defined.

(** No status is a name inherited from [Object.prototype]. *)
Definition statuses_plain (allLicenze : list Licenza.t) : Prop :=
  Forall (fun l => template (Licenza.stato l) ∉ Object_prototype_names) allLicenze.

(** The order of the spec: Approvata 5, Rifiutata 4, Annullata 3,
    Validata 2, Presentata 1, and 0 for every other status. *)
Definition rank (stato : jsval) : Z :=
  if bool_decide (stato = str "Approvata") then 5
  else if bool_decide (stato = str "Rifiutata") then 4
  else if bool_decide (stato = str "Annullata") then 3
  else if bool_decide (stato = str "Validata") then 2
  else if bool_decide (stato = str "Presentata") then 1
  else 0.

(** The current record of a group, in the spec's words: a record of
    highest rank, every record before it in input order being of
    strictly lower rank (the first of equal rank is kept); no record when
    the group is empty. *)
Definition current_of (group : list Licenza.t) (o : option Licenza.t) : Prop :=
  match o with
  | None => group = []
  | Some r =>
      ∃ pre post, group = pre ++ r :: post ∧
        Forall (fun x => rank (Licenza.stato x) < rank (Licenza.stato r)) pre ∧
        Forall (fun x => rank (Licenza.stato x) ≤ rank (Licenza.stato r)) post
  end.

(** ** Annual leave balance (app.js 1038-1076) *)

Record settings : Type := mk_settings {
  giorniLicenzaAnnuale : Z;
  dataAssunzione : string;
  oreRecuperoIniziali : float
}.

Definition DEFAULT_SETTINGS : settings := mk_settings 32 "2020-01-01" 0.

Definition digit (c : ascii) : option Z :=
  let n := N_of_ascii c in
  if ((48 <=? n) && (n <=? 57))%N then Some (Z.of_N n - 48) else None.

Definition is_leap (y : Z) : bool :=
  ((y mod 4 =? 0) && negb (y mod 100 =? 0)) || (y mod 400 =? 0).

Definition days_in_month (y m : Z) : Z :=
  if m =? 2 then (if is_leap y then 29 else 28)
  else if (m =? 4) || (m =? 6) || (m =? 9) || (m =? 11) then 30
  else 31.

Definition valid_date (y m d : Z) : bool :=
  (1 <=? m) && (m <=? 12) && (1 <=? d) && (d <=? days_in_month y m).

(** The date-only form [YYYY-MM-DD] of a calendar date.  What else
    [new Date(string)] reads is not modelled and gives [None] here, which
    otherwise stands for an invalid date: date-times, shortened dates,
    and a day past the end of its month (2025-02-30), which some engines
    read as the date it runs over to. *)
Definition parse_date (s : string) : option (Z * Z * Z) :=
  match list_ascii_of_string s with
  | [y1; y2; y3; y4; s1; m1; m2; s2; d1; d2] =>
      if Ascii.eqb s1 "-" && Ascii.eqb s2 "-" then
        match digit y1, digit y2, digit y3, digit y4,
              digit m1, digit m2, digit d1, digit d2 with
        | Some a, Some b, Some c, Some e, Some f, Some g, Some h, Some i =>
            let y := 1000 * a + 100 * b + 10 * c + e in
            let m := 10 * f + g in
            let d := 10 * h + i in
            if valid_date y m d then Some (y, m, d) else None
        | _, _, _, _, _, _, _, _ => None
        end
      else None
  | _ => None
  end.

(** Days from 1970-01-01 to the date, in the proleptic Gregorian
    calendar (years counted from March). *)
Definition days_from_civil (y m d : Z) : Z :=
  let y' := if m <=? 2 then y - 1 else y in
  let era := y' / 400 in
  let yoe := y' - era * 400 in
  let mp := if m <=? 2 then m + 9 else m - 3 in
  let doy := (153 * mp + 2) / 5 + d - 1 in
  let doe := yoe * 365 + yoe / 4 - yoe / 100 + doy in
  era * 146097 + doe - 719468.

Definition day_number (s : string) : option Z :=
  (fun '(y, m, d) => days_from_civil y m d) <$> parse_date s.

(** [new Date(s).getTime()]: a date-only string is midnight UTC; [None]
    is NaN. *)
Definition Date_getTime (s : string) : option Z :=
  (fun n => n * 86400000) <$> day_number s.

(** [Math.ceil(a / b)] on integers, [b] positive. *)
Definition ceil_div (a b : Z) : Z := - ((- a) / b).

(** The filter of app.js 1050. *)
Definition counted (thisYear : N) (l : Licenza.t) : bool :=
  bool_decide (Licenza.tipo l = "ordinaria")
  && bool_decide (Licenza.stato l = str "Approvata")
  && match Licenza.data_inizio l with
     | str d => startsWith d (pretty thisYear)
     | _ => false
     end.

(** [if (!licenzeByDate[l.data_inizio]) licenzeByDate[l.data_inizio] = l] *)
Definition licenzeByDate_step (licenzeByDate : entries Licenza.t) (l : Licenza.t)
  : entries Licenza.t :=
  match obj_get (template (Licenza.data_inizio l)) licenzeByDate with
  | Some _ => licenzeByDate
  | None => licenzeByDate ++ [(template (Licenza.data_inizio l), l)]
  end.

Definition licenzeByDate (thisYear : N) (allLicenze : list Licenza.t)
  : entries Licenza.t :=
  foldl licenzeByDate_step [] (List.filter (counted thisYear) allLicenze).

(** The days one record adds to [giorniUsati] (app.js 1060-1068); [None]
    is NaN. *)
Definition diffDays (l : Licenza.t) : option Z :=
  match as_truthy (Licenza.data_inizio l), as_truthy (Licenza.data_fine l) with
  | Some di, Some df =>
      start ← Date_getTime di;
      end_ ← Date_getTime df;
      Some (ceil_div (Z.abs (end_ - start)) (1000 * 60 * 60 * 24) + 1)
  | Some _, None => Some 1
  | None, _ => Some 0
  end.

Definition add_days (giorniUsati : option Z) (l : Licenza.t) : option Z :=
  n ← giorniUsati; d ← diffDays l; Some (n + d).

Definition giorniUsati (thisYear : N) (allLicenze : list Licenza.t) : option Z :=
  foldl add_days (Some 0) (licenzeByDate thisYear allLicenze).*2.

Definition giorniRimanenti (s : settings) (thisYear : N)
    (allLicenze : list Licenza.t) : option Z :=
  (fun used => giorniLicenzaAnnuale s - used) <$> giorniUsati thisYear allLicenze.

(** In the spec's words: the requests deduplicated by start date, the
    first record of each date kept; and the calendar days a request
    covers, both ends included. *)
Fixpoint first_per_start (ls : list Licenza.t) : list Licenza.t :=
  match ls with
  | [] => []
  | l :: r =>
      l :: filter (fun x => Licenza.data_inizio x ≠ Licenza.data_inizio l)
                  (first_per_start r)
  end.

Definition inclusive_days (l : Licenza.t) : option Z :=
  match as_truthy (Licenza.data_inizio l), as_truthy (Licenza.data_fine l) with
  | Some di, Some df =>
      a ← day_number di; b ← day_number df; Some (Z.abs (b - a) + 1)
  | Some _, None => Some 1
  | None, _ => None
  end.

(** The calendar day after a date. *)
Definition next_day (y m d : Z) : Z * Z * Z :=
  if d <? days_in_month y m then (y, m, d + 1)
  else if m <? 12 then (y, m + 1, 1)
  else (y + 1, 1, 1).

(** ** Manual entries (app.js 905-987) *)

(** [Number(s)] on a string of decimal digits, the empty string being 0.
    What else [Number] reads as a number (white space around the digits,
    a sign, a fraction, an exponent, another radix) is not modelled and
    gives [None] here, which otherwise stands for NaN, the value of a
    string that is no numeral. *)
Fixpoint digits_value (acc : Z) (s : string) : option Z :=
  match s with
  | EmptyString => Some acc
  | String c r => d ← digit c; digits_value (10 * acc + d) r
  end.

Definition Number_of (s : string) : option Z := digits_value 0 s.

(** [s.split(sep)] for a separator of one character. *)
Fixpoint split_on (sep : ascii) (s : string) : list string :=
  match s with
  | EmptyString => [EmptyString]
  | String c r =>
      if Ascii.eqb c sep then EmptyString :: split_on sep r
      else match split_on sep r with
           | h :: t => String c h :: t
           | [] => [String c EmptyString]
           end
  end.

(** [const [h, m] = ora.split(':').map(Number)] *)
Definition parse_ora (ora : string) : option (Z * Z) :=
  match split_on ":" ora with
  | h :: m :: _ => hh ← Number_of h; mm ← Number_of m; Some (hh, mm)
  | _ => None
  end.

(** [minutiFine - minutiInizio] after the step across midnight. *)
Definition durata_minuti (oraInizio oraFine : string) : option Z :=
  match parse_ora oraInizio, parse_ora oraFine with
  | Some (hI, mI), Some (hF, mF) =>
      let minutiInizio := hI * 60 + mI in
      let minutiFine := hF * 60 + mF in
      let minutiFine :=
        if minutiFine <? minutiInizio then minutiFine + 24 * 60 else minutiFine in
      Some (minutiFine - minutiInizio)
  | _, _ => None
  end.

Definition durataOre (oraInizio oraFine : string) : float :=
  match durata_minuti oraInizio oraFine with
  | Some m => (Z2f m / 60)%float
  | None => PrimFloat.nan
  end.

(** [Math.round(x * 100) / 100] *)
Definition round2 (x : float) : float := (Math_round (x * 100) / 100)%float.

Record form : Type := mk_form {
  addData : string;
  addTipo : string;
  addAssenza : string;
  addDettaglio : string;
  addOraInizio : string;
  addOraFine : string
}.

(** The day record that [saveManualEntry] builds from the form; [now] is
    [new Date().toISOString()]. *)
Definition saveManualEntry_giornata (now : string) (f : form) : Giornata.t :=
  let dateStr := addData f in
  let tipo := addTipo f in
  let isAssenza := bool_decide (tipo = "ASSENZA") in
  let dettaglio := if isAssenza then addAssenza f else addDettaglio f in
  let oraInizio := if isAssenza then "00:00" else addOraInizio f in
  let oraFine := if isAssenza then "23:59" else addOraFine f in
  let durata := if isAssenza then 0%float else durataOre oraInizio oraFine in
  let oreOrdinarie := if isAssenza then 0%float else Math_min durata 6 in
  let oreStraordinario :=
    if isAssenza then 0%float else Math_max 0 (durata - 6)%float in
  Giornata.mk (str dateStr)
    [Turno.mk (str (dateStr +:+ "_manual")) (str tipo) (str dettaglio)
       (str "000000") (str dateStr) (str oraInizio) (str oraFine)
       (Some (round2 durata)) (PrimFloat.ltb 0 oreStraordinario)
       (Some (round2 oreOrdinarie)) (Some (round2 oreStraordinario))
       (str now) (str "manual_entry") (str "attivo")]
    (Some (round2 durata)) (Some (round2 oreOrdinarie))
    (Some (round2 oreStraordinario)) false (str "") true.

(** [manualEntries[dateStr] = giornata]: assigning to [__proto__] when
    the store has no key of that name sets the prototype of the store and
    adds no key.  [saveManualEntries] then writes the store to
    [localStorage], from where the reload reads it back: the write is
    taken to succeed, and the entries to come back as they were
    written. *)
Definition saveManualEntry (now : string) (f : form)
    (manualEntries : entries Giornata.t) : entries Giornata.t :=
  if bool_decide (addData f = "__proto__")
     && negb (isManualEntry manualEntries "__proto__")
  then manualEntries
  else obj_set (addData f) (saveManualEntry_giornata now f) manualEntries.

(** [if (confirm(...)) delete manualEntries[dateStr]]: [confirmed] is
    the user's answer. *)
Definition deleteManualEntry (confirmed : bool) (dateStr : string)
    (manualEntries : entries Giornata.t) : entries Giornata.t :=
  if confirmed then obj_delete dateStr manualEntries else manualEntries.

(** Hundredths of an hour: [centesimi m] is 100 m / 60 rounded to the
    nearest integer, a half going up, and [ore c] the binary64 number
    [c / 100]. *)
Definition centesimi (m : Z) : Z := (10 * m + 3) / 6.

Definition ore (c : Z) : float := (Z2f c / 100)%float.

(** The field holds a number equal to [y] (binary64 [==]). *)
Definition num_is (x : option float) (y : float) : Prop :=
  match x with
  | Some v => PrimFloat.eqb v y = true
  | None => False
  end.

(** ** Sorting, the loaded days and the upcoming days (app.js 102-112, 314-330) *)

(** [g.data >= today]: [today] is the date part of an ISO time stamp, no
    numeral, so a date that is [null] or [undefined] compares false. *)
Definition data_ge (data : jsval) (today : string) : bool :=
  match data with
  | str d => str_leb today d
  | _ => false
  end.

(** [Array.prototype.sort] with a comparator: stable, an element going
    before the first one that it compares less than. *)
Fixpoint js_insert {A} (cmp : A → A → comparison) (x : A) (sorted : list A)
  : list A :=
  match sorted with
  | [] => [x]
  | y :: r =>
      match cmp x y with
      | Lt => x :: y :: r
      | _ => y :: js_insert cmp x r
      end
  end.

Definition js_sort {A} (cmp : A → A → comparison) (l : list A) : list A :=
  foldl (fun sorted x => js_insert cmp x sorted) [] l.

(** [a] may stand before [b] under the comparator: [b] does not compare
    less than [a]. *)
Definition in_order {A} (cmp : A → A → comparison) (a b : A) : Prop :=
  cmp b a ≠ Lt.

Section Lists.

Variable localeCompare : string → string → comparison.

(** [(a, b) => (b.data || '').localeCompare(a.data || '')] and the same
    with [a] and [b] exchanged. *)
Definition by_data_desc (a b : Giornata.t) : comparison :=
  localeCompare (str_or (Giornata.data b) "") (str_or (Giornata.data a) "").

Definition by_data_asc (a b : Giornata.t) : comparison :=
  localeCompare (str_or (Giornata.data a) "") (str_or (Giornata.data b) "").

(** [!year]: [year] is [null] ([None], also for NaN) or a number. *)
Definition falsy_year (year : option Z) : bool :=
  match year with
  | None => true
  | Some y => y =? 0
  end.

(** [allGiornate] as [loadData] leaves it: [giornate] is [data.giornate
    || []] and [thisYear] is [new Date().getFullYear()]. *)
Definition loadData_giornate (year : option Z) (thisYear : Z)
    (giornate : list Giornata.t) (manualEntries : entries Giornata.t)
  : list Giornata.t :=
  js_sort by_data_desc
    (if falsy_year year || bool_decide (year = Some thisYear)
     then mergeManualEntries giornate manualEntries
     else giornate).

(** The days that [renderProssimiServizi] shows. *)
Definition prossimi (today : string) (allGiornate : list Giornata.t)
  : list Giornata.t :=
  take 5 (js_sort by_data_asc
            (List.filter (fun g => data_ge (Giornata.data g) today) allGiornate)).

End Lists.

(** ** The leave list (app.js 609-674, 828-836) *)

Section Leave_list.

Variable inherited_text : string → string.
Variable localeCompare : string → string → comparison.

(** [licenzeByKey] as the object it is, its entries in the order of
    [Object.values]: the keys hold an underscore, so none is an array
    index and the order is that of insertion; with start dates that hold
    no underscore none is an inherited name either. *)
Definition dedup_step_entries (licenzeByKey : entries Licenza.t) (l : Licenza.t)
  : entries Licenza.t :=
  if truthy (Licenza.data_inizio l) then
    match obj_get (licenza_key l) licenzeByKey with
    | None => obj_set (licenza_key l) l licenzeByKey
    | Some existing =>
        if js_gt (priority inherited_text (Licenza.stato l))
                 (priority inherited_text (Licenza.stato existing))
        then obj_set (licenza_key l) l licenzeByKey
        else licenzeByKey
    end
  else licenzeByKey.

Definition licenzeByKey_entries (allLicenze : list Licenza.t) : entries Licenza.t :=
  foldl dedup_step_entries [] allLicenze.

Definition licenze_filter (filter : string) (l : Licenza.t) : bool :=
  if bool_decide (filter = "pending") then
    bool_decide (Licenza.stato l = str "Presentata")
    || bool_decide (Licenza.stato l = str "Validata")
  else if bool_decide (filter = "approvate") then
    bool_decide (Licenza.stato l = str "Approvata")
  else if bool_decide (filter = "rifiutate") then
    bool_decide (Licenza.stato l = str "Rifiutata")
    || bool_decide (Licenza.stato l = str "Annullata")
  else true.

(** [formatLicenzaTipo], as the text that the template prints:
    [map[tipo] || tipo], where a type that is an inherited name finds the
    inherited member. *)
Definition formatLicenzaTipo (tipo : string) : string :=
  let map : gmap string string :=
    list_to_map [("ordinaria", "Licenza Ordinaria");
                 ("straordinaria", "Licenza Straordinaria");
                 ("speciale", "Licenza Speciale");
                 ("riposo_donatori", "Riposo Donatori")] in
  match map !! tipo with
  | Some v => v
  | None =>
      if bool_decide (tipo ∈ Object_prototype_names) then inherited_text tipo
      else tipo
  end.

Definition statusClass (stato : jsval) : string :=
  let statusClass := "pending" in
  let statusClass :=
    if bool_decide (stato = str "Approvata") then "approved" else statusClass in
  if bool_decide (stato = str "Rifiutata") || bool_decide (stato = str "Annullata")
  then "rejected" else statusClass.

(** The date column of a leave item: the placeholder N/D, one date, or a
    range; the dates are printed by [formatDateShort] in local time. *)
Inductive date_shown : Type :=
  | date_nd
  | date_single (data_inizio : string)
  | date_range (data_inizio data_fine : string).

Definition licenza_date (l : Licenza.t) : date_shown :=
  match as_truthy (Licenza.data_inizio l) with
  | None => date_nd
  | Some di =>
      match as_truthy (Licenza.data_fine l) with
      | None => date_single di
      | Some df =>
          if bool_decide (Licenza.data_inizio l = Licenza.data_fine l)
          then date_single di else date_range di df
      end
  end.

Record licenza_item : Type := mk_licenza_item {
  item_tipo : string;
  item_date : date_shown;
  item_class : string;
  item_stato : jsval
}.

Definition licenza_view (l : Licenza.t) : licenza_item :=
  mk_licenza_item (formatLicenzaTipo (Licenza.tipo l)) (licenza_date l)
                  (statusClass (Licenza.stato l)) (Licenza.stato l).

Definition by_inizio_desc (a b : Licenza.t) : comparison :=
  localeCompare (str_or (Licenza.data_inizio b) "")
                (str_or (Licenza.data_inizio a) "").

(** The records that [renderLicenze] lists, and their items. *)
Definition renderLicenze_shown (filter : string) (allLicenze : list Licenza.t)
  : list Licenza.t :=
  take 30 (js_sort by_inizio_desc
             (List.filter (licenze_filter filter)
                          (licenzeByKey_entries allLicenze).*2)).

Definition renderLicenze (filter : string) (allLicenze : list Licenza.t)
  : list licenza_item :=
  licenza_view <$> renderLicenze_shown filter allLicenze.

End Leave_list.

(** ** The calendar grid and the day detail (app.js 395-578) *)

(** [String(n).padStart(2, '0')] *)
Definition pad2 (n : N) : string :=
  if (String.length (pretty n) <? 2)%nat then "0" +:+ pretty n else pretty n.

(** [`${year}-${String(month + 1).padStart(2, '0')}`], [month] counted
    from 0, and the date of a cell of that month. *)
Definition monthStr (year month : N) : string :=
  pretty year +:+ "-" +:+ pad2 (month + 1).

Definition cell_date (year month day : N) : string :=
  pretty year +:+ "-" +:+ pad2 (month + 1) +:+ "-" +:+ pad2 day.

(** [{ data: l.data_inizio, is_licenza: true, tipo_licenza: l.tipo }] and
    [giornata.is_licenza = true]. *)
Definition licenza_placeholder (l : Licenza.t) : Giornata.t :=
  Giornata.mk (Licenza.data_inizio l) [] None None None true
              (str (Licenza.tipo l)) false.

Definition set_licenza (g : Giornata.t) : Giornata.t :=
  Giornata.mk (Giornata.data g) (Giornata.turni g) (Giornata.ore_totali g)
              (Giornata.ore_ordinarie g) (Giornata.ore_straordinario g) true
              (Giornata.tipo_licenza g) (Giornata.isManual g).

Definition approved_in_month (monthStr : string) (l : Licenza.t) : bool :=
  bool_decide (Licenza.stato l = str "Approvata")
  && match as_truthy (Licenza.data_inizio l) with
     | Some d => startsWith d monthStr
     | None => false
     end.

Definition overlay_step (giornateMap : gmap string Giornata.t) (l : Licenza.t)
  : gmap string Giornata.t :=
  match giornateMap !! template (Licenza.data_inizio l) with
  | None => <[template (Licenza.data_inizio l) := licenza_placeholder l]> giornateMap
  | Some g => <[template (Licenza.data_inizio l) := set_licenza g]> giornateMap
  end.

(** [giornateMap] after the approved leave is added (app.js 422-431).  In
    the code the record that line 429 marks [is_licenza] is the object
    that [allGiornate] holds, so that a list item made from it afterwards
    shows leave as well; the map alone is modelled here, and a property
    that reads a day after the calendar was drawn is stated for a date on
    which no approved leave starts. *)
Definition calendarMap (monthStr : string) (allGiornate : list Giornata.t)
    (allLicenze : list Licenza.t) : gmap string Giornata.t :=
  foldl overlay_step (giornateMap monthStr allGiornate)
        (List.filter (approved_in_month monthStr) allLicenze).

(** A number that may be missing, in arithmetic. *)
Definition num_val (x : option float) : float := default PrimFloat.nan x.

(** The class of a day cell and the overtime it prints (app.js 450-471). *)
Definition dayClass (giornata : option Giornata.t) (isPast isManual : bool)
  : string * option float :=
  match giornata with
  | Some g =>
      let '(c, h) :=
        if Giornata.is_licenza g then ("licenza", None)
        else if is_assenza (head (Giornata.turni g)) then ("riposo", None)
        else if num_pos (Giornata.ore_straordinario g)
             then ("straord", Some (formatNumber (num_val (Giornata.ore_straordinario g))))
        else if num_pos (Giornata.ore_totali g) then ("servizio", None)
        else ("", None) in
      (if isManual then c +:+ " manual" else c, h)
  | None => (if isPast then "empty-add" else "", None)
  end.

Record cal_cell : Type := mk_cell {
  cell_day : N;
  cell_class : string;
  cell_hours : option float;
  cell_today : bool
}.

Definition calendar_cell (today : string) (manualEntries : entries Giornata.t)
    (allGiornate : list Giornata.t) (allLicenze : list Licenza.t)
    (year month day : N) : cal_cell :=
  let dateStr := cell_date year month day in
  let giornata := calendarMap (monthStr year month) allGiornate allLicenze !! dateStr in
  let '(c, h) := dayClass giornata (str_ltb dateStr today)
                          (isManualEntry manualEntries dateStr) in
  mk_cell day c h (bool_decide (dateStr = today)).

(** What [showDayDetail] writes: the empty state, with the button to add
    a shift or without it, or rows. *)
Inductive day_detail : Type :=
  | detail_empty (add_button : bool)
  | detail_rows (rows : list detail_row).

Definition find_approved (allLicenze : list Licenza.t) (dateStr : string)
  : option Licenza.t :=
  List.find (fun l => bool_decide (Licenza.stato l = str "Approvata")
                      && bool_decide (Licenza.data_inizio l = str dateStr))
            allLicenze.

Definition showDayDetail (inherited_text : string → string)
    (today : string) (manualEntries : entries Giornata.t)
    (allGiornate : list Giornata.t) (allLicenze : list Licenza.t)
    (dateStr : string) : day_detail :=
  let giornata := find_by_date allGiornate dateStr in
  let licenza := find_approved allLicenze dateStr in
  let isPast := str_leb dateStr today in
  let isManual := isManualEntry manualEntries dateStr in
  match giornata, licenza with
  | None, None => detail_empty isPast
  | _, _ =>
      detail_rows
        (match licenza with
         | Some l =>
             [row_text "Licenza" (formatLicenzaTipo inherited_text (Licenza.tipo l))]
         | None => []
         end
         ++ match giornata with
            | Some g => showDayDetail_rows isManual g
            | None => []
            end)
  end.

(** ** Calendar navigation and years of service (app.js 116, 215-223, 1088-1099) *)

(** The local calendar fields of a [Date] object: [getFullYear()],
    [getMonth()] (counted from 0) and [getDate()].  The time of day is
    not modelled. *)
Record date_fields : Type := mk_date {
  getFullYear : Z;
  getMonth : Z;
  getDate : Z
}.

(** [Date.prototype.setMonth(month)]: the year takes up the months beyond
    0..11, the day of the month is kept, and a day past the end of the
    month runs over into the following month (a day of the month is at
    most 31, so the run-over ends there). *)
Definition Date_setMonth (d : date_fields) (month : Z) : date_fields :=
  let y := getFullYear d + month / 12 in
  let m := month mod 12 in
  if getDate d <=? days_in_month y (m + 1) then mk_date y m (getDate d)
  else if m <? 11 then mk_date y (m + 1) (getDate d - days_in_month y (m + 1))
  else mk_date (y + 1) 0 (getDate d - days_in_month y (m + 1)).

(** The handlers of the two calendar buttons:
    [currentCalendarMonth.setMonth(currentCalendarMonth.getMonth() - 1)]
    and the same with [+ 1]. *)
Definition prevMonth (currentCalendarMonth : date_fields) : date_fields :=
  Date_setMonth currentCalendarMonth (getMonth currentCalendarMonth - 1).

Definition nextMonth (currentCalendarMonth : date_fields) : date_fields :=
  Date_setMonth currentCalendarMonth (getMonth currentCalendarMonth + 1).

(** [anniServizio] of [updateSettingsInfo], both dates valid. *)
Definition anniServizio (oggi assunzione : date_fields) : Z :=
  let anniServizio := getFullYear oggi - getFullYear assunzione in
  if (getMonth oggi <? getMonth assunzione)
     || ((getMonth oggi =? getMonth assunzione)
         && (getDate oggi <? getDate assunzione))
  then anniServizio - 1 else anniServizio.

(** ** Vocabulary of the properties *)

(** The day carries the date [dateStr]. *)
Definition has_date (dateStr : string) (g : Giornata.t) : Prop :=
  Giornata.data g = str dateStr.

#[global] Instance has_date_dec dateStr g : Decision (has_date dateStr g).
Proof. unfold has_date. apply _. Defined.

(** Every manual entry is stored under its own date: what
    [saveManualEntry] writes ([manualEntries[dateStr] = giornata] with
    [giornata.data = dateStr]). *)
Definition stored_under_own_date (manualEntries : entries Giornata.t) : Prop :=
  Forall (fun kv => Giornata.data kv.2 = str kv.1) manualEntries.

(** The date strings carried by a sequence of days. *)
Definition date_strings (l : list Giornata.t) : list string :=
  omap (fun g => match Giornata.data g with str d => Some d | _ => None end) l.

(** The record carries a date string ([data] is neither [null] nor
    [undefined]). *)
Definition dated (g : Giornata.t) : Prop :=
  Giornata.data g ≠ null ∧ Giornata.data g ≠ undefined.

(** The request has a start date that is a string. *)
Definition has_start (l : Licenza.t) : Prop :=
  ∃ d, Licenza.data_inizio l = str d.

Definition sum_days (days : list Z) : Z := foldr Z.add 0 days.

(** In the spec's words: the record awaits a decision.  It is Presentata
    or Validata, has a start date, and no record of the same type and
    start date in the whole input is Approvata, Rifiutata or Annullata. *)
Definition awaiting (allLicenze : list Licenza.t) (l : Licenza.t) : Prop :=
  (Licenza.stato l = str "Presentata" ∨ Licenza.stato l = str "Validata") ∧
  (∃ d, Licenza.data_inizio l = str d ∧ d ≠ "") ∧
  ∀ x, x ∈ allLicenze →
       Licenza.tipo x = Licenza.tipo l →
       Licenza.data_inizio x = Licenza.data_inizio l →
       Licenza.stato x ≠ str "Approvata" ∧ Licenza.stato x ≠ str "Rifiutata" ∧
       Licenza.stato x ≠ str "Annullata".

(** In the spec's words: an approved request of the ordinary type whose
    start date begins with the numeral of the year. *)
Definition approved_ordinary_in (year : N) (l : Licenza.t) : Prop :=
  Licenza.tipo l = "ordinaria" ∧ Licenza.stato l = str "Approvata" ∧
  ∃ d, Licenza.data_inizio l = str d ∧ startsWith d (pretty year) = true.

#[global] Instance approved_ordinary_in_dec year l :
  Decision (approved_ordinary_in year l).
Proof.
  unfold approved_ordinary_in.
  destruct (Licenza.data_inizio l) as [| |d].
  - right. by intros (_ & _ & d & ? & _).
  - right. by intros (_ & _ & d & ? & _).
  - destruct (decide (Licenza.tipo l = "ordinaria" ∧
                      Licenza.stato l = str "Approvata" ∧
                      startsWith d (pretty year) = true)) as [H|H].
    + left. destruct H as (? & ? & ?). eauto.
    + right. intros (? & ? & d' & [= <-] & ?). by apply H.
Defined.

(** The hours that [saveManualEntry] stores for a duration of [m]
    minutes are those of [centesimi m], and the overtime flag is set from
    361 minutes on. *)
Definition ore_check (m : Z) : bool :=
  let durata := (Z2f m / 60)%float in
  let T := centesimi m in
  PrimFloat.eqb (round2 durata) (ore T)
  && PrimFloat.eqb (round2 (Math_min durata 6)) (ore (Z.min T 600))
  && PrimFloat.eqb (round2 (Math_max 0 (durata - 6)%float)) (ore (Z.max 0 (T - 600)))
  && Bool.eqb (PrimFloat.ltb 0 (Math_max 0 (durata - 6)%float)) (360 <? m).

(** The calendar date [a] is the date [b] or an earlier one. *)
Definition on_or_before (a b : date_fields) : Prop :=
  getFullYear a < getFullYear b
  ∨ getFullYear a = getFullYear b
    ∧ (getMonth a < getMonth b
       ∨ getMonth a = getMonth b ∧ getDate a ≤ getDate b).

(** The same day and month [n] years later. *)
Definition anniversary (n : Z) (d : date_fields) : date_fields :=
  mk_date (getFullYear d + n) (getMonth d) (getDate d).


(** ** Sample data (spec section 8) *)

Definition giorno (date : string) (ore : float) : Giornata.t :=
  Giornata.mk (str date) [] (Some ore) None None false undefined false.

Definition feed_0301 : Giornata.t := giorno "2025-03-01" 8.
Definition manual_0301 : Giornata.t := giorno "2025-03-01" 0.
Definition manual_0302 : Giornata.t := giorno "2025-03-02" 6.
Definition feed_0301_bis : Giornata.t := giorno "2025-03-01" 4.
Definition feed_blank : Giornata.t := giorno "" 8.
Definition manual_blank : Giornata.t := giorno "" 6.

Definition lic (tipo data_inizio stato : string) : Licenza.t :=
  Licenza.mk tipo (str data_inizio) undefined (str stato).

Definition licenze_A : list Licenza.t :=
  [lic "A" "2025-01-10" "Presentata"; lic "A" "2025-01-10" "Approvata";
   lic "A" "2025-01-10" "Validata"].

Definition licenze_B : list Licenza.t := [lic "B" "2025-02-01" "Presentata"].

Definition licenze_B_rejected : list Licenza.t :=
  [lic "B" "2025-02-01" "Rifiutata"; lic "B" "2025-02-01" "Presentata"].

(** A day whose first shift, an absence, was removed upstream and
    replaced by a worked shift. *)
Definition turno_eliminato : Turno.t :=
  Turno.mk (str "t1") (str "ASSENZA") (str "Riposo settimanale") (str "000000")
           (str "2025-03-01") (str "00:00") (str "23:59") (Some 0%float) false
           (Some 0%float) (Some 0%float) (str "2025-02-27T08:00:00Z") (str "m1")
           (str "eliminato").

Definition turno_attivo : Turno.t :=
  Turno.mk (str "t2") (str "PRESENZA") (str "Servizio esterno") (str "000000")
           (str "2025-03-01") (str "08:00") (str "14:00") (Some 6%float) false
           (Some 6%float) (Some 0%float) (str "2025-02-28T08:00:00Z") (str "m2")
           (str "attivo").

Definition giornata_corretta : Giornata.t :=
  Giornata.mk (str "2025-03-01") [turno_eliminato; turno_attivo]
              (Some 6%float) (Some 6%float) (Some 0%float) false (str "") false.

Definition lic_range (tipo data_inizio data_fine stato : string) : Licenza.t :=
  Licenza.mk tipo (str data_inizio) (str data_fine) (str stato).

Definition licenze_2025 : list Licenza.t :=
  [lic_range "ordinaria" "2025-06-10" "2025-06-12" "Presentata";
   lic_range "ordinaria" "2025-06-10" "2025-06-12" "Approvata";
   lic_range "ordinaria" "2025-06-10" "2025-06-12" "Approvata";
   lic "ordinaria" "2025-08-01" "Approvata";
   lic_range "straordinaria" "2025-09-01" "2025-09-05" "Approvata";
   lic_range "ordinaria" "2024-12-30" "2025-01-02" "Approvata"].

(** An open request for eleven days whose approved record grants three,
    approved leave of another type and of another year, and a one-day
    request. *)
Definition licenze_2025_miste : list Licenza.t :=
  [lic_range "ordinaria" "2025-06-10" "2025-06-20" "Presentata";
   lic_range "ordinaria" "2025-06-10" "2025-06-12" "Approvata";
   lic_range "straordinaria" "2025-07-01" "2025-07-05" "Approvata";
   lic "ordinaria" "2025-08-01" "Approvata";
   lic_range "ordinaria" "2024-12-30" "2025-01-02" "Approvata"].

(** A request whose first record carries a status that is the name of a
    member of [Object.prototype], followed by its approved record. *)
Definition licenze_constructor : list Licenza.t :=
  [lic "ordinaria" "2025-01-10" "constructor";
   lic "ordinaria" "2025-01-10" "Approvata"].

Definition form_0800_1607 : form :=
  mk_form "2025-03-03" "PRESENZA" "Riposo settimanale" "Servizio esterno"
          "08:00" "16:07".

Definition form_2200_0600 : form :=
  mk_form "2025-03-04" "PRESENZA" "Riposo settimanale" "Servizio esterno"
          "22:00" "06:00".


(** * Properties *)

(** ** Classification *)

Example getAssenzaAbbr_rs : getAssenzaAbbr (str "Riposo settimanale") = "RS".
Proof. reflexivity. Qed.

Example getAssenzaAbbr_ro : getAssenzaAbbr (str "RECUPERO ORE") = "RO".
Proof. reflexivity. Qed.

Example getAssenzaAbbr_rrs :
  getAssenzaAbbr (str "Recupero del riposo (settimanale)") = "RRS".
Proof. reflexivity. Qed.

Example getPresenzaAbbr_ufficio : getPresenzaAbbr (str "Disbrigo pratiche") = "Ufficio".
Proof. reflexivity. Qed.

(** A detail that mentions recupero, riposo and settimanale is never
    classified as recovery of hours: the code is RS, RF or RRS. *)
Lemma getAssenzaAbbr_recupero_riposo_settimanale s :
  includes (toLowerCase s) "recupero" = true →
  includes (toLowerCase s) "riposo" = true →
  includes (toLowerCase s) "settimanale" = true →
  getAssenzaAbbr (str s) ∈ ["RS"; "RF"; "RRS"].
Proof.
  intros H1 H2 H3. unfold getAssenzaAbbr, as_truthy.
  case_bool_decide as Hs; [by subst s|].
  cbv zeta. rewrite H1, H2, H3.
  destruct (includes (toLowerCase s) "riposo settimanale"); [set_solver|].
  destruct (includes (toLowerCase s) "riposo festivita"); set_solver.
Qed.

Lemma getAssenzaAbbr_recupero_riposo_settimanale_example :
  getAssenzaAbbr (str "Recupero ore per riposo settimanale non fruito")
  ∈ ["RS"; "RF"; "RRS"].
Proof.
  apply getAssenzaAbbr_recupero_riposo_settimanale; reflexivity.
Defined.

(** It is RRS exactly when neither "riposo settimanale" nor "riposo
    festivita" occurs as one phrase. *)
Lemma getAssenzaAbbr_RRS_iff s :
  getAssenzaAbbr (str s) = "RRS" ↔
  includes (toLowerCase s) "riposo settimanale" = false ∧
  includes (toLowerCase s) "riposo festivita" = false ∧
  includes (toLowerCase s) "recupero" = true ∧
  includes (toLowerCase s) "riposo" = true ∧
  includes (toLowerCase s) "settimanale" = true.
Proof.
  unfold getAssenzaAbbr, as_truthy.
  case_bool_decide as Hs; [subst s; by split; [|intros (_ & _ & ? & _)]|].
  cbv zeta.
  destruct (includes (toLowerCase s) "riposo settimanale");
    [by split; [|intros (? & _)]|].
  destruct (includes (toLowerCase s) "riposo festivita");
    [by split; [|intros (_ & ? & _)]|].
  destruct (includes (toLowerCase s) "recupero"); simpl;
    [|repeat match goal with |- context [if ?b then _ else _] => destruct b end;
      by split; [|intros (_ & _ & ? & _)]].
  destruct (includes (toLowerCase s) "riposo"); simpl;
    [|repeat match goal with |- context [if ?b then _ else _] => destruct b end;
      by split; [|intros (_ & _ & _ & ? & _)]].
  destruct (includes (toLowerCase s) "settimanale"); simpl; [done|].
  repeat match goal with |- context [if ?b then _ else _] => destruct b end;
    by split; [|intros (_ & _ & _ & _ & ?)].
Qed.

(** C2 at the phrase itself.  "Recupero riposo settimanale" mentions
    recupero, riposo and settimanale, and is classified as weekly rest
    (RS, "Riposo Settimanale"): the test for the phrase "riposo
    settimanale" comes first in both classifiers. *)
Lemma getAssenzaAbbr_recupero_phrase :
  includes (toLowerCase "Recupero riposo settimanale") "recupero" = true ∧
  includes (toLowerCase "Recupero riposo settimanale") "riposo" = true ∧
  includes (toLowerCase "Recupero riposo settimanale") "settimanale" = true ∧
  getAssenzaAbbr (str "Recupero riposo settimanale") = "RS" ∧
  getAssenzaLabel (str "Recupero riposo settimanale") = "Riposo Settimanale".
Proof. repeat split; reflexivity. Qed.

(** C9.  The classifiers are total functions into their fixed sets of
    codes, and for [undefined], [null] and the empty string they return
    the fallbacks "Riposo" and "Servizio". *)
Theorem classifiers_total_with_fallback :
  getAssenzaAbbr undefined = "Riposo" ∧ getAssenzaAbbr null = "Riposo" ∧
  getAssenzaAbbr (str "") = "Riposo" ∧
  getPresenzaAbbr undefined = "Servizio" ∧ getPresenzaAbbr null = "Servizio" ∧
  getPresenzaAbbr (str "") = "Servizio" ∧
  (∀ dettaglio,
     getAssenzaAbbr dettaglio ∈ ["RS"; "RF"; "RRS"; "RRF"; "RO"; "LO"; "LS"; "Riposo"] ∧
     getPresenzaAbbr dettaglio ∈ ["Esterno"; "Operativo"; "Istituz."; "Ufficio"; "Servizio"]).
Proof.
  repeat split; try reflexivity.
  - unfold getAssenzaAbbr. destruct (as_truthy dettaglio); cbv zeta;
      repeat match goal with |- context [if ?b then _ else _] => destruct b end;
      set_solver.
  - unfold getPresenzaAbbr. destruct (as_truthy dettaglio); cbv zeta;
      repeat match goal with |- context [if ?b then _ else _] => destruct b end;
      set_solver.
Qed.

(** ** Reconciliation *)

Lemma filter_ext_elem {A} (P Q : A → Prop)
    `{!∀ x, Decision (P x)} `{!∀ x, Decision (Q x)} (l : list A) :
  (∀ x, x ∈ l → P x ↔ Q x) → filter P l = filter Q l.
Proof.
  induction l as [|x l IH]; intros Hext; [done|].
  rewrite !filter_cons.
  rewrite IH by (intros y Hy; apply Hext; by right).
  destruct (decide (P x)) as [HP|HP], (decide (Q x)) as [HQ|HQ]; try done.
  - destruct HQ. by apply (Hext x); [left|].
  - destruct HP. by apply (Hext x); [left|].
Qed.

Lemma find_by_date_Some l k g :
  find_by_date l k = Some g → g ∈ l ∧ Giornata.data g = str k.
Proof.
  unfold find_by_date. intros H. apply find_some in H as [Hin Hd].
  split; [by apply list_elem_of_In | by apply bool_decide_eq_true in Hd].
Qed.

Lemma find_by_date_None l k :
  find_by_date l k = None ↔ ∀ g, g ∈ l → Giornata.data g ≠ str k.
Proof.
  unfold find_by_date. split.
  - intros H g Hin Hd. apply list_elem_of_In in Hin.
    pose proof (find_none _ _ H g Hin) as Hb. simpl in Hb.
    by apply bool_decide_eq_false in Hb.
  - intros H. destruct (List.find _ l) as [g|] eqn:E; [|done].
    apply find_some in E as [Hin Hd]. apply bool_decide_eq_true in Hd.
    apply list_elem_of_In in Hin. by destruct (H g Hin).
Qed.

Lemma find_by_date_app_None l1 l2 k :
  find_by_date (l1 ++ l2) k = None ↔
  find_by_date l1 k = None ∧ find_by_date l2 k = None.
Proof.
  rewrite !find_by_date_None. split.
  - intros H; split; intros g Hg; apply H; apply elem_of_app; auto.
  - intros [H1 H2] g [Hg|Hg]%elem_of_app; auto.
Qed.

Lemma merge_entry_spec l k e :
  merge_entry l (k, e) =
  l ++ (if find_by_date l k is Some _ then [] else [e]).
Proof.
  unfold merge_entry. destruct (find_by_date l k); [by rewrite app_nil_r | done].
Qed.

Lemma mergeManualEntries_nil l : mergeManualEntries l [] = l.
Proof. reflexivity. Qed.

Lemma mergeManualEntries_cons l kv ov :
  mergeManualEntries l (kv :: ov) = mergeManualEntries (merge_entry l kv) ov.
Proof. reflexivity. Qed.

(** The merge only appends: the feed is a prefix of the result. *)
Lemma mergeManualEntries_extends ov : ∀ l,
  ∃ added, mergeManualEntries l ov = l ++ added.
Proof.
  induction ov as [|[k e] ov IH]; intros l.
  - exists []. by rewrite app_nil_r.
  - rewrite mergeManualEntries_cons, merge_entry_spec.
    destruct (IH (l ++ (if find_by_date l k is Some _ then [] else [e]))) as [a Ha].
    eexists. rewrite Ha, <- app_assoc. done.
Qed.

(** With distinct keys and every entry stored under its own date, the
    result is the feed followed by the entries whose key is no feed date,
    in enumeration order. *)
Lemma mergeManualEntries_filter ov : ∀ l,
  NoDup ov.*1 → stored_under_own_date ov →
  mergeManualEntries l ov =
  l ++ (filter (fun kv => find_by_date l kv.1 = None) ov).*2.
Proof.
  induction ov as [|[k e] ov IH]; intros l Hnd Hown.
  - by rewrite app_nil_r.
  - apply NoDup_cons in Hnd as [Hk Hnd].
    apply Forall_cons in Hown as [He Hown]. simpl in He.
    rewrite mergeManualEntries_cons, merge_entry_spec, filter_cons. simpl.
    destruct (find_by_date l k) as [g|] eqn:Ef.
    + rewrite app_nil_r, decide_False by done. by apply IH.
    + rewrite decide_True by done. rewrite IH by done.
      rewrite <- app_assoc. simpl. do 3 f_equal.
      apply filter_ext_elem. intros [k' e'] Hin. simpl.
      rewrite find_by_date_app_None. split; [by intros [? _]|].
      intros H; split; [done|].
      apply find_by_date_None. intros g [->|[]%elem_of_nil]%elem_of_cons.
      rewrite He. intros [= ->]. apply Hk.
      apply list_elem_of_fmap. by exists (k', e').
Qed.

Lemma filter_none {A} (P : A → Prop) `{!∀ x, Decision (P x)} (l : list A) :
  (∀ x, x ∈ l → ¬ P x) → filter P l = [].
Proof.
  induction l as [|x l IH]; intros Hno; [done|].
  rewrite filter_cons_False by (apply Hno; by left).
  apply IH. intros y Hy. apply Hno. by right.
Qed.

Lemma filter_comm {A} (P Q : A → Prop)
    `{!∀ x, Decision (P x)} `{!∀ x, Decision (Q x)} (l : list A) :
  filter P (filter Q l) = filter Q (filter P l).
Proof.
  rewrite !list_filter_filter. apply list_filter_iff. intros x. tauto.
Qed.

Lemma filter_all {A} (P : A → Prop) `{!∀ x, Decision (P x)} (l : list A) :
  (∀ x, x ∈ l → P x) → filter P l = l.
Proof.
  induction l as [|x l IH]; intros Hall; [done|].
  rewrite filter_cons_True by (apply Hall; by left).
  f_equal. apply IH. intros y Hy. apply Hall. by right.
Qed.

Lemma Forall2_impl_elem {A B} (P Q : A → B → Prop) l k :
  Forall2 P l k → (∀ x y, x ∈ l → P x y → Q x y) → Forall2 Q l k.
Proof.
  induction 1 as [|x y l k HP _ IH]; intros Himp; constructor.
  - apply Himp; [by left | done].
  - apply IH. intros x' y' Hx'. apply Himp. by right.
Qed.

Lemma filter_key_unique {V} (ov : entries V) k v :
  NoDup ov.*1 → (k, v) ∈ ov → filter (fun kv => kv.1 = k) ov = [(k, v)].
Proof.
  induction ov as [|[k' v'] ov IH]; intros Hnd Hin; [by apply elem_of_nil in Hin|].
  apply NoDup_cons in Hnd as [Hk Hnd].
  apply elem_of_cons in Hin as [[= <- <-]|Hin].
  - rewrite filter_cons_True by done. f_equal.
    apply filter_none. intros [k2 v2] H2 ?; simplify_eq/=.
    apply Hk. apply list_elem_of_fmap. by exists (k, v2).
  - rewrite filter_cons_False; [by apply IH|].
    simpl. intros ->. apply Hk. apply list_elem_of_fmap. by exists (k, v).
Qed.

Lemma filter_has_date_values (ov : entries Giornata.t) d :
  stored_under_own_date ov →
  filter (has_date d) ov.*2 = (filter (fun kv => kv.1 = d) ov).*2.
Proof.
  induction 1 as [|[k e] ov He _ IH]; [done|]. simpl in He.
  rewrite fmap_cons, !filter_cons. cbn [fst snd].
  destruct (decide (has_date d e)) as [Hd|Hd]; unfold has_date in Hd;
    rewrite He in Hd.
  - injection Hd as ->. rewrite decide_True by done.
    by rewrite fmap_cons, IH.
  - by rewrite decide_False by congruence.
Qed.

Lemma stored_under_own_date_filter (P : string * Giornata.t → Prop)
    `{!∀ x, Decision (P x)} ov :
  stored_under_own_date ov → stored_under_own_date (filter P ov).
Proof.
  unfold stored_under_own_date. rewrite !Forall_forall.
  intros Hown kv [_ Hin]%list_elem_of_filter. by apply Hown.
Qed.

(** C1 (feed precedence).  For manual entries with pairwise distinct keys,
    each stored under its own date, and an entry [entry] stored under
    [dateStr]: the result of [mergeManualEntries] starts with the feed
    records, unchanged and in order; if some feed record carries
    [dateStr], the records of that date in the result are exactly the
    feed's (the entry is not appended); if no feed record carries
    [dateStr], the only record of that date in the result is [entry]
    itself. *)
Theorem mergeManualEntries_feed_precedence
    (allGiornate : list Giornata.t) (manualEntries : entries Giornata.t)
    (dateStr : string) (entry : Giornata.t) :
  NoDup manualEntries.*1 →
  stored_under_own_date manualEntries →
  (dateStr, entry) ∈ manualEntries →
  (∃ added, mergeManualEntries allGiornate manualEntries = allGiornate ++ added) ∧
  ((∃ g, g ∈ allGiornate ∧ Giornata.data g = str dateStr) →
     filter (has_date dateStr) (mergeManualEntries allGiornate manualEntries)
     = filter (has_date dateStr) allGiornate) ∧
  ((∀ g, g ∈ allGiornate → Giornata.data g ≠ str dateStr) →
     filter (has_date dateStr) (mergeManualEntries allGiornate manualEntries)
     = [entry]).
Proof.
  intros Hnd Hown Hin. split; [apply mergeManualEntries_extends|].
  rewrite mergeManualEntries_filter by done.
  rewrite filter_app, filter_has_date_values
    by (by apply stored_under_own_date_filter).
  rewrite filter_comm, (filter_key_unique _ _ _ Hnd Hin).
  rewrite filter_singleton; [|done].
  split.
  - intros (g & Hg & Hd).
    rewrite decide_False; [by rewrite app_nil_r|].
    simpl. rewrite find_by_date_None. intros Hno. by apply (Hno g).
  - intros Hno. rewrite decide_True by (by apply find_by_date_None).
    rewrite filter_none by (intros g Hg; by apply Hno). done.
Qed.

(** C1, at the spec's examples: the feed has 2025-03-01 with 8 hours, the
    manual entries have 2025-03-01 with 0 hours and 2025-03-02 with 6. *)
Lemma mergeManualEntries_feed_precedence_example :
  filter (has_date "2025-03-01")
    (mergeManualEntries [feed_0301]
       [("2025-03-01", manual_0301); ("2025-03-02", manual_0302)]) = [feed_0301] ∧
  filter (has_date "2025-03-02")
    (mergeManualEntries [feed_0301]
       [("2025-03-01", manual_0301); ("2025-03-02", manual_0302)]) = [manual_0302].
Proof.
  assert (Hnd : NoDup [("2025-03-01", manual_0301); ("2025-03-02", manual_0302)].*1)
    by (apply (bool_decide_unpack _); vm_compute; exact I).
  assert (Hown : stored_under_own_date
            [("2025-03-01", manual_0301); ("2025-03-02", manual_0302)])
    by (repeat constructor).
  split.
  - destruct (mergeManualEntries_feed_precedence [feed_0301] _
                "2025-03-01" manual_0301 Hnd Hown) as (_ & H & _).
    + apply list_elem_of_In. simpl. auto.
    + rewrite H; [reflexivity|]. exists feed_0301. split; [|reflexivity].
      apply list_elem_of_In. simpl. auto.
  - destruct (mergeManualEntries_feed_precedence [feed_0301] _
                "2025-03-02" manual_0302 Hnd Hown) as (_ & _ & H).
    + apply list_elem_of_In. simpl. auto.
    + apply H. intros g Hg. apply list_elem_of_In in Hg.
      destruct Hg as [<-|[]]. discriminate.
Defined.

Lemma date_strings_app l1 l2 :
  date_strings (l1 ++ l2) = date_strings l1 ++ date_strings l2.
Proof. apply omap_app. Qed.

Lemma date_strings_values (ov : entries Giornata.t) :
  stored_under_own_date ov → date_strings ov.*2 = ov.*1.
Proof.
  induction 1 as [|[k e] ov He _ IH]; [done|]. simpl in He.
  rewrite !fmap_cons. unfold date_strings in *. cbn [omap list_omap fst snd].
  rewrite He. by f_equal.
Qed.

Lemma elem_of_date_strings l d :
  d ∈ date_strings l ↔ ∃ g, g ∈ l ∧ Giornata.data g = str d.
Proof.
  unfold date_strings. rewrite list_elem_of_omap. split.
  - intros (g & Hg & Hd). exists g. split; [done|].
    destruct (Giornata.data g); congruence.
  - intros (g & Hg & Hd). exists g. by rewrite Hd.
Qed.

(** C5, as the code has it.  When the feed's records carry pairwise
    distinct date strings, the manual entries have distinct keys and each
    is stored under its own date, the records of the merged sequence carry
    pairwise distinct date strings. *)
Theorem mergeManualEntries_distinct_dates
    (allGiornate : list Giornata.t) (manualEntries : entries Giornata.t) :
  NoDup manualEntries.*1 →
  stored_under_own_date manualEntries →
  NoDup (date_strings allGiornate) →
  NoDup (date_strings (mergeManualEntries allGiornate manualEntries)).
Proof.
  intros Hnd Hown Hfeed.
  rewrite mergeManualEntries_filter by done.
  rewrite date_strings_app, date_strings_values
    by (by apply stored_under_own_date_filter).
  apply NoDup_app. split; [done|]. split.
  - intros d Hd [[k e] [-> Hin]]%list_elem_of_fmap.
    apply list_elem_of_filter in Hin as [Hnone _]. simpl in *.
    apply elem_of_date_strings in Hd as (g & Hg & Hdg).
    rewrite find_by_date_None in Hnone. by apply (Hnone g).
  - eapply sublist_NoDup; [exact Hnd|].
    apply fmap_sublist, sublist_filter.
Qed.

(** C5 at the sample data. *)
Lemma mergeManualEntries_distinct_dates_example :
  NoDup (date_strings (mergeManualEntries [feed_0301]
           [("2025-03-01", manual_0301); ("2025-03-02", manual_0302)])).
Proof.
  apply mergeManualEntries_distinct_dates.
  - apply (bool_decide_unpack _); vm_compute; exact I.
  - repeat constructor.
  - apply (bool_decide_unpack _); vm_compute; exact I.
Defined.

(** C5 as stated fails: the merge keeps a feed that already holds two
    records of one date. *)
Lemma mergeManualEntries_keeps_feed_duplicates :
  mergeManualEntries [feed_0301; feed_0301_bis] [] = [feed_0301; feed_0301_bis] ∧
  date_strings (mergeManualEntries [feed_0301; feed_0301_bis] [])
  = ["2025-03-01"; "2025-03-01"].
Proof. split; reflexivity. Qed.

(** *** Merging again, and the store behind the manual entries *)

Lemma mergeManualEntries_fixed l (ov : entries Giornata.t) :
  (∀ k e, (k, e) ∈ ov → find_by_date l k ≠ None) →
  mergeManualEntries l ov = l.
Proof.
  induction ov as [|[k e] ov IH]; intros Hall; [done|].
  rewrite mergeManualEntries_cons, merge_entry_spec.
  destruct (find_by_date l k) eqn:E.
  - rewrite app_nil_r. apply IH. intros k' e' Hin. apply (Hall k' e'). by right.
  - destruct (Hall k e); [by left | done].
Qed.

(** The merge is idempotent (spec section 8): merging the same manual
    entries into the merged sequence adds nothing. *)
Theorem mergeManualEntries_idempotent
    (allGiornate : list Giornata.t) (manualEntries : entries Giornata.t) :
  NoDup manualEntries.*1 →
  stored_under_own_date manualEntries →
  mergeManualEntries (mergeManualEntries allGiornate manualEntries) manualEntries
  = mergeManualEntries allGiornate manualEntries.
Proof.
  intros Hnd Hown. apply mergeManualEntries_fixed. intros k e Hin Hnone.
  rewrite mergeManualEntries_filter in Hnone by done.
  apply find_by_date_app_None in Hnone as [Hfeed Hadded].
  rewrite find_by_date_None in Hadded. apply (Hadded e).
  - apply list_elem_of_fmap. exists (k, e). split; [done|].
    by apply list_elem_of_filter.
  - by apply (proj1 (Forall_forall _ _) Hown (k, e)).
Qed.

Lemma mergeManualEntries_idempotent_example :
  mergeManualEntries
    (mergeManualEntries [feed_0301]
       [("2025-03-01", manual_0301); ("2025-03-02", manual_0302)])
    [("2025-03-01", manual_0301); ("2025-03-02", manual_0302)]
  = mergeManualEntries [feed_0301]
      [("2025-03-01", manual_0301); ("2025-03-02", manual_0302)].
Proof.
  apply mergeManualEntries_idempotent.
  - apply (bool_decide_unpack _); vm_compute; exact I.
  - repeat constructor.
Defined.

Lemma obj_set_elem {V} k v (o : entries V) kv :
  kv ∈ obj_set k v o → kv = (k, v) ∨ kv ∈ o.
Proof.
  induction o as [|[k' v'] o IH]; simpl.
  - intros ->%list_elem_of_singleton. by left.
  - case_bool_decide.
    + intros [->|Hin]%elem_of_cons; [by left | right; by right].
    + intros [->|Hin]%elem_of_cons; [right; by left|].
      destruct (IH Hin) as [->|?]; [by left | right; by right].
Qed.

Lemma obj_set_keys {V} k v (o : entries V) :
  (obj_set k v o).*1 = if bool_decide (k ∈ o.*1) then o.*1 else o.*1 ++ [k].
Proof.
  induction o as [|[k' v'] o IH]; [done|].
  cbn [obj_set]. rewrite fmap_cons. cbn [fst].
  destruct (decide (k' = k)) as [->|Hk].
  - rewrite (bool_decide_eq_true_2 (k = k)) by done.
    rewrite fmap_cons, bool_decide_eq_true_2 by (by left). done.
  - rewrite (bool_decide_eq_false_2 (k' = k)) by done.
    rewrite fmap_cons, IH. cbn [fst].
    destruct (decide (k ∈ o.*1)) as [Hin|Hin].
    + rewrite !bool_decide_eq_true_2; [done | by right | done].
    + rewrite !bool_decide_eq_false_2; [done | | done].
      intros [->|?]%elem_of_cons; done.
Qed.

Lemma saveManualEntry_keeps_store now f (o : entries Giornata.t) :
  NoDup o.*1 → stored_under_own_date o →
  NoDup (saveManualEntry now f o).*1 ∧
  stored_under_own_date (saveManualEntry now f o).
Proof.
  intros Hnd Hown. unfold saveManualEntry.
  destruct (_ && _); [done|]. split.
  - rewrite obj_set_keys. case_bool_decide as Hin; [done|].
    apply NoDup_app. split; [done|]. split; [|apply NoDup_singleton].
    intros k Hk ->%list_elem_of_singleton. done.
  - apply Forall_forall. intros kv [->|Hin]%obj_set_elem; [done|].
    by apply (proj1 (Forall_forall _ _) Hown).
Qed.

Lemma deleteManualEntry_keeps_store confirmed d (o : entries Giornata.t) :
  NoDup o.*1 → stored_under_own_date o →
  NoDup (deleteManualEntry confirmed d o).*1 ∧
  stored_under_own_date (deleteManualEntry confirmed d o).
Proof.
  intros Hnd Hown. destruct confirmed; [|done]. split.
  - eapply sublist_NoDup; [exact Hnd|]. apply fmap_sublist, sublist_filter.
  - by apply stored_under_own_date_filter.
Qed.

(** What [saveManualEntry] and [deleteManualEntry] leave in the store,
    whatever the date saved and whether the deletion is confirmed or
    refused: distinct keys, every entry under its own date. *)
Theorem manualEntries_store_invariant
    (now : string) (f : form) (confirmed : bool) (dateStr : string)
    (manualEntries : entries Giornata.t) :
  NoDup manualEntries.*1 →
  stored_under_own_date manualEntries →
  (NoDup (saveManualEntry now f manualEntries).*1 ∧
   stored_under_own_date (saveManualEntry now f manualEntries)) ∧
  (NoDup (deleteManualEntry confirmed dateStr manualEntries).*1 ∧
   stored_under_own_date (deleteManualEntry confirmed dateStr manualEntries)).
Proof.
  intros Hnd Hown. split.
  - by apply saveManualEntry_keeps_store.
  - by apply deleteManualEntry_keeps_store.
Qed.

Lemma manualEntries_store_invariant_example :
  (NoDup (saveManualEntry "" form_0800_1607 [("2025-03-02", manual_0302)]).*1 ∧
   stored_under_own_date
     (saveManualEntry "" form_0800_1607 [("2025-03-02", manual_0302)])) ∧
  (NoDup (deleteManualEntry true "2025-03-02" [("2025-03-02", manual_0302)]).*1 ∧
   stored_under_own_date
     (deleteManualEntry true "2025-03-02" [("2025-03-02", manual_0302)])).
Proof.
  apply manualEntries_store_invariant.
  - apply (bool_decide_unpack _); vm_compute; exact I.
  - repeat constructor.
Defined.

(** *** Records without a date *)

Lemma find_by_date_dated l k :
  find_by_date (filter dated l) k = None ↔ find_by_date l k = None.
Proof.
  rewrite !find_by_date_None. split.
  - intros H g Hg Hd. apply (H g); [|done].
    apply list_elem_of_filter. split; [|done].
    unfold dated. rewrite Hd. done.
  - intros H g [_ Hg]%list_elem_of_filter. by apply H.
Qed.

(** Two sequences with the same dates receive the same additions. *)
Lemma mergeManualEntries_same_added ov : ∀ l1 l2,
  (∀ k, find_by_date l1 k = None ↔ find_by_date l2 k = None) →
  ∃ added, mergeManualEntries l1 ov = l1 ++ added ∧
           mergeManualEntries l2 ov = l2 ++ added.
Proof.
  induction ov as [|[k e] ov IH]; intros l1 l2 Hsame.
  - exists []. by rewrite !mergeManualEntries_nil, !app_nil_r.
  - rewrite !mergeManualEntries_cons, !merge_entry_spec.
    set (x := if find_by_date l1 k is Some _ then [] else [e]).
    assert ((if find_by_date l2 k is Some _ then [] else [e]) = x) as ->.
    { subst x. specialize (Hsame k).
      destruct (find_by_date l1 k), (find_by_date l2 k); try done.
      - by destruct Hsame as [_ H]; specialize (H eq_refl).
      - by destruct Hsame as [H _]; specialize (H eq_refl). }
    destruct (IH (l1 ++ x) (l2 ++ x)) as (added & H1 & H2).
    { intros k'. rewrite !find_by_date_app_None, (Hsame k'). done. }
    exists (x ++ added). by rewrite H1, H2, <- !app_assoc.
Qed.

Lemma giornateMap_lookup monthStr (L : list Giornata.t) k g :
  giornateMap monthStr L !! k = Some g →
  k ≠ "" ∧ Giornata.data g = str k ∧ g ∈ L.
Proof.
  unfold giornateMap.
  assert (Hsub : ∀ x, x ∈ List.filter (in_month monthStr) L →
                      x ∈ L ∧ in_month monthStr x = true).
  { intros x Hx. apply list_elem_of_In, filter_In in Hx as [Hx Hm].
    split; [by apply list_elem_of_In | done]. }
  revert Hsub. generalize (List.filter (in_month monthStr) L). intros l.
  assert (Hm : ∀ k g, (∅ : gmap string Giornata.t) !! k = Some g →
                      k ≠ "" ∧ Giornata.data g = str k ∧ g ∈ L)
    by (intros ? ?; by rewrite lookup_empty).
  revert Hm k g. generalize (∅ : gmap string Giornata.t).
  induction l as [|x l IH]; intros m Hm k g Hsub; simpl; [by apply Hm|].
  apply IH.
  - intros k' g'. destruct (Hsub x) as [HxL Hxm]; [by left|].
    unfold in_month, as_truthy in Hxm.
    destruct (Giornata.data x) as [| |d] eqn:Ed; try done.
    destruct (bool_decide (d = "")) eqn:Eb; [done|].
    apply bool_decide_eq_false in Eb. simpl.
    destruct (decide (d = k')) as [<-|Hne].
    + rewrite lookup_insert_eq. by intros [= <-].
    + rewrite lookup_insert_ne by done. apply Hm.
  - intros y Hy. apply Hsub. by right.
Qed.

(** C8, as the code has it.  A feed record whose date is [null] or
    [undefined] matches no key of the manual entries: the entries that
    [mergeManualEntries] appends are the same with and without such
    records, and every feed record stays in the result.  The calendar's
    date-keyed map holds no record whose date is [null], [undefined] or
    empty: each key is a non-empty string and is the date of the record
    it maps to. *)
Theorem undated_records_match_no_entry
    (allGiornate : list Giornata.t) (manualEntries : entries Giornata.t)
    (monthStr : string) :
  (∃ added,
     mergeManualEntries allGiornate manualEntries = allGiornate ++ added ∧
     mergeManualEntries (filter dated allGiornate) manualEntries
     = filter dated allGiornate ++ added) ∧
  (∀ k g, giornateMap monthStr allGiornate !! k = Some g →
          k ≠ "" ∧ Giornata.data g = str k ∧ g ∈ allGiornate).
Proof.
  split.
  - apply mergeManualEntries_same_added. intros k.
    by rewrite find_by_date_dated.
  - intros k g. apply giornateMap_lookup.
Qed.

(** C8 as stated fails for the empty string: a feed record whose date is
    [""] is found by the lookup for the key [""], and the entry stored
    under that key is not appended; without the feed record it is. *)
Lemma empty_date_matches_empty_key :
  mergeManualEntries [feed_blank] [("", manual_blank)] = [feed_blank] ∧
  mergeManualEntries [] [("", manual_blank)] = [manual_blank].
Proof. split; reflexivity. Qed.

(** ** Leave requests *)

Lemma append_nil s : "" +:+ s = s.
Proof. reflexivity. Qed.

Lemma append_cons c s t : String c s +:+ t = String c (s +:+ t).
Proof. reflexivity. Qed.

Lemma no_underscore_key t d : no_underscore (t +:+ "_" +:+ d) = false.
Proof.
  induction t as [|c t IH]; [done|].
  rewrite append_cons. simpl. rewrite IH. apply andb_false_r.
Qed.

Lemma key_inj t1 t2 d1 d2 :
  no_underscore d1 = true → no_underscore d2 = true →
  t1 +:+ "_" +:+ d1 = t2 +:+ "_" +:+ d2 → t1 = t2 ∧ d1 = d2.
Proof.
  intros H1 H2. revert t2.
  induction t1 as [|c t1 IH]; intros [|c2 t2];
    repeat (rewrite append_nil || rewrite append_cons); intros Heq.
  - by injection Heq.
  - injection Heq as _ ->.
    pose proof (no_underscore_key t2 d2 : no_underscore (t2 +:+ String "_" d2) = false).
    congruence.
  - injection Heq as _ <-.
    pose proof (no_underscore_key t1 d1 : no_underscore (t1 +:+ String "_" d1) = false).
    congruence.
  - injection Heq as -> Heq. by destruct (IH _ Heq) as [-> ->].
Qed.

Lemma truthy_str d : truthy (str d) = true ↔ d ≠ "".
Proof.
  unfold truthy, as_truthy. case_bool_decide; split; try done.
Qed.

Lemma truthy_inv v : truthy v = true → ∃ d, v = str d ∧ d ≠ "".
Proof.
  destruct v as [| |d]; try done. intros H. exists d. split; [done|].
  by apply truthy_str.
Qed.

(** For plain dates the string key identifies the request. *)
Lemma licenza_key_same t d l dl :
  Licenza.data_inizio l = str dl →
  no_underscore dl = true → no_underscore d = true →
  licenza_key l = t +:+ "_" +:+ d ↔ same_request t d l.
Proof.
  intros Hl Hdl Hd. unfold licenza_key, same_request. rewrite Hl. simpl. split.
  - intros [-> ->]%key_inj; done.
  - by intros [-> [= ->]].
Qed.

Lemma filter_snoc {A} (P : A → Prop) `{!∀ x, Decision (P x)} (l : list A) x :
  filter P (l ++ [x]) = filter P l ++ (if decide (P x) then [x] else []).
Proof. rewrite filter_app. f_equal. Qed.

Lemma current_of_snoc group o l :
  current_of group o →
  current_of (group ++ [l])
    (Some match o with
          | None => l
          | Some existing =>
              if rank (Licenza.stato l) >? rank (Licenza.stato existing)
              then l else existing
          end).
Proof.
  destruct o as [ex|]; simpl.
  - intros (pre & post & -> & Hpre & Hpost).
    destruct (Z.gtb_spec (rank (Licenza.stato l)) (rank (Licenza.stato ex))) as [Hgt|Hle].
    + exists (pre ++ ex :: post), []. split; [done|]. split; [|constructor].
      apply Forall_app. split; [|constructor; [lia|]].
      * eapply Forall_impl; [exact Hpre|]. simpl; intros; lia.
      * eapply Forall_impl; [exact Hpost|]. simpl; intros; lia.
    + exists pre, (post ++ [l]). split; [by rewrite <- app_assoc|]. split; [done|].
      apply Forall_app. split; [done|]. constructor; [lia|constructor].
  - intros ->. exists [], []. split; [done|]. split; constructor.
Qed.

Lemma current_of_elem group r : current_of group (Some r) → r ∈ group.
Proof.
  intros (pre & post & -> & _). apply elem_of_app. right. by left.
Qed.

Lemma rank_cases v :
  rank v = 0 ∨
  (v = str "Approvata" ∧ rank v = 5) ∨ (v = str "Rifiutata" ∧ rank v = 4) ∨
  (v = str "Annullata" ∧ rank v = 3) ∨ (v = str "Validata" ∧ rank v = 2) ∨
  (v = str "Presentata" ∧ rank v = 1).
Proof.
  unfold rank.
  case_bool_decide; [by right; left|].
  case_bool_decide; [by right; right; left|].
  case_bool_decide; [by right; right; right; left|].
  case_bool_decide; [by right; right; right; right; left|].
  case_bool_decide; [by right; right; right; right; right|].
  by left.
Qed.

(** On a status that is no inherited name the table with its fallback
    gives the rank of the spec. *)
Lemma priority_plain inherited_text v :
  template v ∉ Object_prototype_names →
  priority inherited_text v = inl (rank v).
Proof.
  intros Hv. unfold priority.
  destruct (statoPriority !! template v) as [n|] eqn:E.
  - apply elem_of_list_to_map_2 in E.
    assert (Hs : ∀ s, template v = s → s ≠ "undefined" → s ≠ "null" → v = str s).
    { intros s <-. destruct v; simpl; congruence. }
    repeat (apply elem_of_cons in E as [[= Ht ->]|E];
            [rewrite (Hs _ Ht) by done; reflexivity|]).
    by apply elem_of_nil in E.
  - rewrite bool_decide_eq_false_2 by done. f_equal.
    destruct (rank_cases v) as [->|[[-> _]|[[-> _]|[[-> _]|[[-> _]|[-> _]]]]]];
      [done|by vm_compute in E..].
Qed.

Lemma js_gt_plain inherited_text a b :
  template a ∉ Object_prototype_names →
  template b ∉ Object_prototype_names →
  js_gt (priority inherited_text a) (priority inherited_text b)
  = (rank a >? rank b).
Proof. intros Ha Hb. by rewrite !priority_plain. Qed.

Lemma licenzeByKey_snoc inherited_text allLicenze l :
  licenzeByKey inherited_text (allLicenze ++ [l])
  = dedup_step inherited_text (licenzeByKey inherited_text allLicenze) l.
Proof. unfold licenzeByKey. by rewrite foldl_app. Qed.

Lemma start_dates_plain_app l1 l2 :
  start_dates_plain (l1 ++ l2) ↔ start_dates_plain l1 ∧ start_dates_plain l2.
Proof. apply Forall_app. Qed.

Lemma licenzeByKey_current inherited_text allLicenze t d :
  d ≠ "" → no_underscore d = true →
  start_dates_plain allLicenze → statuses_plain allLicenze →
  current_of (filter (same_request t d) allLicenze)
             (licenzeByKey inherited_text allLicenze !! (t +:+ "_" +:+ d)).
Proof.
  intros Hd Hplain.
  induction allLicenze as [|l done IH] using rev_ind; intros Hall Hst.
  - unfold licenzeByKey. simpl. by rewrite lookup_empty.
  - apply start_dates_plain_app in Hall as [Hdone Hl].
    unfold start_dates_plain in Hl. rewrite Forall_singleton in Hl.
    apply Forall_app in Hst as [Hstd Hstl]. rewrite Forall_singleton in Hstl.
    specialize (IH Hdone Hstd).
    rewrite licenzeByKey_snoc, filter_snoc. unfold dedup_step.
    destruct (truthy (Licenza.data_inizio l)) eqn:Etr.
    + apply truthy_inv in Etr as (dl & Edl & Hdl).
      pose proof (licenza_key_same t d l dl Edl (Hl _ Edl) Hplain) as Hkey.
      destruct (decide (same_request t d l)) as [Hsame|Hdiff].
      * apply Hkey in Hsame. rewrite Hsame.
        destruct (licenzeByKey inherited_text done !! (t +:+ "_" +:+ d))
          as [ex|] eqn:Elook.
        -- pose proof (current_of_snoc _ _ l IH) as Hsn. simpl in Hsn.
           assert (Hex : template (Licenza.stato ex) ∉ Object_prototype_names).
           { apply current_of_elem in IH as [_ Hin]%list_elem_of_filter.
             by apply (proj1 (Forall_forall _ _) Hstd). }
           rewrite js_gt_plain by done.
           destruct (rank (Licenza.stato l) >? rank (Licenza.stato ex)).
           ++ by rewrite lookup_insert_eq.
           ++ by rewrite Elook.
        -- rewrite lookup_insert_eq. apply (current_of_snoc _ None l IH).
      * rewrite app_nil_r.
        assert (licenza_key l ≠ t +:+ "_" +:+ d) as Hne by (by rewrite Hkey).
        destruct (licenzeByKey inherited_text done !! licenza_key l) as [ex|];
          [|by rewrite lookup_insert_ne].
        destruct (js_gt _ _); [by rewrite lookup_insert_ne | done].
    + rewrite decide_False, app_nil_r; [done|].
      intros [_ Hdl]. rewrite Hdl in Etr.
      apply truthy_str in Hd. congruence.
Qed.

(** For leave requests whose start dates are plain dates and whose
    statuses are no names inherited from [Object.prototype], and a
    request [(tipo, data_inizio)] with a non-empty start date: the record
    that [renderLicenze] keeps under the request's key is the current
    record of the request's group (the group's records in input order): a
    record of highest rank, the first one among those of equal rank; the
    key holds a record exactly when the group is not empty.  The ranks
    are Approvata 5, Rifiutata 4, Annullata 3, Validata 2, Presentata 1
    and 0 for every other status. *)
Theorem licenzeByKey_highest_priority
    (inherited_text : string → string)
    (allLicenze : list Licenza.t) (tipo data_inizio : string) :
  data_inizio ≠ "" →
  no_underscore data_inizio = true →
  start_dates_plain allLicenze →
  statuses_plain allLicenze →
  current_of (filter (same_request tipo data_inizio) allLicenze)
             (licenzeByKey inherited_text allLicenze !! (tipo +:+ "_" +:+ data_inizio)) ∧
  (is_Some (licenzeByKey inherited_text allLicenze !! (tipo +:+ "_" +:+ data_inizio)) ↔
   filter (same_request tipo data_inizio) allLicenze ≠ []) ∧
  rank (str "Approvata") = 5 ∧ rank (str "Rifiutata") = 4 ∧
  rank (str "Annullata") = 3 ∧ rank (str "Validata") = 2 ∧
  rank (str "Presentata") = 1 ∧
  (∀ v, v ∉ [str "Approvata"; str "Rifiutata"; str "Annullata"; str "Validata";
             str "Presentata"] → rank v = 0).
Proof.
  intros Hd Hplain Hall Hst.
  pose proof (licenzeByKey_current inherited_text allLicenze tipo data_inizio
                Hd Hplain Hall Hst) as Hcur.
  split; [done|]. split.
  - destruct (licenzeByKey inherited_text allLicenze !! _) as [r|]; simpl in Hcur.
    + destruct Hcur as (pre & post & -> & _). split; [|by eexists].
      intros _. by destruct pre.
    + rewrite Hcur. split; [by intros [? ?] | done].
  - repeat split; try reflexivity. intros v Hv.
    destruct (rank_cases v) as [?|[[-> _]|[[-> _]|[[-> _]|[[-> _]|[-> _]]]]]];
      [done|exfalso; apply Hv; set_solver..].
Qed.

(** At the spec's example: submitted, approved, validated records of the
    request (A, 2025-01-10) resolve to the approved record. *)
Lemma licenzeByKey_highest_priority_example :
  current_of (filter (same_request "A" "2025-01-10") licenze_A)
             (licenzeByKey (fun name => name) licenze_A !! "A_2025-01-10") ∧
  licenzeByKey (fun name => name) licenze_A !! "A_2025-01-10"
  = Some (lic "A" "2025-01-10" "Approvata").
Proof.
  split; [|vm_compute; reflexivity].
  apply (licenzeByKey_highest_priority (fun name => name) licenze_A "A" "2025-01-10").
  - discriminate.
  - reflexivity.
  - repeat constructor; intros s [= <-]; reflexivity.
  - repeat constructor; apply (bool_decide_unpack _); vm_compute; exact I.
Defined.

(** C3.  The resolution ranks a status by [statoPriority[l.stato] || 0];
    the fallback shows the order meant, in which a status without an
    entry ranks 0, below Presentata.  For a status that is the name of a
    member of [Object.prototype] the lookup finds that member instead: it
    is no number, and both comparisons of line 620 are false.  So of the
    records "constructor" and Approvata of one request, in this order,
    the first is kept, though the current record in the spec's order is
    the approved one: the list of approved leave is empty, while
    [updateSettingsInfo], which compares the status with [===], counts
    the approved record. *)
Lemma licenzeByKey_inherited_status :
  current_of (filter (same_request "ordinaria" "2025-01-10") licenze_constructor)
             (Some (lic "ordinaria" "2025-01-10" "Approvata")) ∧
  (∀ inherited_text : string → string,
     licenzeByKey inherited_text licenze_constructor !! "ordinaria_2025-01-10"
     = Some (lic "ordinaria" "2025-01-10" "constructor") ∧
     ∀ localeCompare : string → string → comparison,
       renderLicenze inherited_text localeCompare "approvate" licenze_constructor
       = [] ∧
       renderLicenze_shown inherited_text localeCompare "tutte" licenze_constructor
       = [lic "ordinaria" "2025-01-10" "constructor"]) ∧
  giorniUsati 2025 licenze_constructor = Some 1.
Proof.
  split; [|split].
  - exists [lic "ordinaria" "2025-01-10" "constructor"], []. split; [reflexivity|].
    split; repeat constructor.
  - intros inherited_text. split; [vm_compute; reflexivity|].
    intros localeCompare. split; vm_compute; reflexivity.
  - vm_compute. reflexivity.
Qed.

Lemma hasResolved_false allLicenze l :
  hasResolved allLicenze l = false ↔
  ∀ x, x ∈ allLicenze → Licenza.tipo x = Licenza.tipo l →
       Licenza.data_inizio x = Licenza.data_inizio l →
       is_resolved (Licenza.stato x) = false.
Proof.
  unfold hasResolved. split.
  - intros Hno x Hx Ht Hd.
    destruct (is_resolved (Licenza.stato x)) eqn:Er; [|done].
    assert (existsb (fun x => bool_decide (Licenza.tipo x = Licenza.tipo l)
                    && bool_decide (Licenza.data_inizio x = Licenza.data_inizio l)
                    && is_resolved (Licenza.stato x)) allLicenze = true) as Hex; [|congruence].
    apply existsb_exists. exists x. split; [by apply list_elem_of_In|].
    by rewrite !bool_decide_eq_true_2, Er.
  - intros Hall. destruct (existsb _ allLicenze) eqn:Ex; [|done].
    apply existsb_exists in Ex as (x & Hx & Hb).
    apply andb_true_iff in Hb as [Hb Hr]. apply andb_true_iff in Hb as [Ht Hd].
    apply bool_decide_eq_true in Ht, Hd.
    rewrite (Hall x) in Hr; [done| by apply list_elem_of_In | done | done].
Qed.

(** The two tests of [checkPendingLicenze], status by status. *)
Lemma is_pending_iff v :
  is_pending v = true ↔ v = str "Presentata" ∨ v = str "Validata".
Proof.
  unfold is_pending. rewrite orb_true_iff, !bool_decide_eq_true. done.
Qed.

Lemma is_resolved_iff v :
  is_resolved v = true ↔
  v = str "Approvata" ∨ v = str "Rifiutata" ∨ v = str "Annullata".
Proof.
  unfold is_resolved. rewrite !orb_true_iff, !bool_decide_eq_true. tauto.
Qed.

Lemma is_resolved_false_iff v :
  is_resolved v = false ↔
  v ≠ str "Approvata" ∧ v ≠ str "Rifiutata" ∧ v ≠ str "Annullata".
Proof.
  rewrite <- not_true_iff_false, is_resolved_iff. tauto.
Qed.

(** The key of a request with a plain, non-empty start date is not the
    name [__proto__]. *)
Lemma plain_key_not_proto t d :
  d ≠ "" → no_underscore d = true → t +:+ "_" +:+ d ≠ "__proto__".
Proof.
  intros Hd Hnu Heq.
  destruct (key_inj t "__proto_" d "" Hnu eq_refl Heq) as [_ ->]. done.
Qed.

Lemma pending_fold allLicenze t d : ∀ part,
  d ≠ "" → no_underscore d = true → start_dates_plain part →
  is_Some (foldl (pending_step allLicenze) ∅ part !! (t +:+ "_" +:+ d)) ↔
  ∃ l, l ∈ part ∧ same_request t d l ∧ is_pending (Licenza.stato l) = true ∧
       hasResolved allLicenze l = false.
Proof.
  intros part Hd Hplain.
  induction part as [|l part IH] using rev_ind; intros Hall.
  - simpl. rewrite lookup_empty. split; [by intros [? ?]|].
    by intros (l & Hl%elem_of_nil & _).
  - apply start_dates_plain_app in Hall as [Hpart Hl].
    unfold start_dates_plain in Hl. rewrite Forall_singleton in Hl.
    specialize (IH Hpart). rewrite foldl_app. simpl.
    assert (Hrest : (∃ l0, l0 ∈ part ++ [l] ∧ same_request t d l0 ∧
                       is_pending (Licenza.stato l0) = true ∧
                       hasResolved allLicenze l0 = false) ↔
                    (∃ l0, l0 ∈ part ∧ same_request t d l0 ∧
                       is_pending (Licenza.stato l0) = true ∧
                       hasResolved allLicenze l0 = false) ∨
                    (same_request t d l ∧ is_pending (Licenza.stato l) = true ∧
                       hasResolved allLicenze l = false)).
    { split.
      - intros (l0 & [Hin|Hin%list_elem_of_singleton]%elem_of_app & H); [left; eauto|].
        subst l0. by right.
      - intros [(l0 & Hin & H)|H].
        + exists l0. split; [apply elem_of_app; by left | done].
        + exists l. split; [apply elem_of_app; right; by apply list_elem_of_singleton | done]. }
    rewrite Hrest, <- IH. clear Hrest IH. unfold pending_step.
    destruct (is_pending (Licenza.stato l)) eqn:Ep; simpl;
      [|split; [by left | by intros [?|(_ & ? & _)]]].
    destruct (truthy (Licenza.data_inizio l)) eqn:Etr.
    + apply truthy_inv in Etr as (dl & Edl & Hdl).
      pose proof (licenza_key_same t d l dl Edl (Hl _ Edl) Hplain) as Hkey.
      destruct (hasResolved allLicenze l) eqn:Er; simpl;
        [split; [by left | by intros [?|(_ & _ & ?)]]|].
      rewrite bool_decide_eq_false_2.
      2:{ unfold licenza_key. rewrite Edl. simpl.
          apply plain_key_not_proto; [done|by apply Hl]. }
      destruct (decide (same_request t d l)) as [Hsame|Hdiff].
      * rewrite (proj2 Hkey Hsame), lookup_insert_eq.
        split; [by right | by eexists].
      * rewrite lookup_insert_ne by (by rewrite Hkey).
        split; [by left | by intros [?|(? & _)]].
    + split; [by left|]. intros [?|([_ Hdl] & _)]; [done|].
      rewrite Hdl in Etr. apply truthy_str in Hd. congruence.
Qed.

(** C4.  For leave requests whose start dates are plain dates, and a
    request [(tipo, data_inizio)] with a non-empty start date: the request's
    key is flagged by [checkPendingLicenze] exactly when some record of the
    request is Presentata or Validata and no record of the request in the
    whole input is Approvata, Rifiutata or Annullata; so a record of the
    request with one of these three statuses anywhere in the input
    leaves the key unflagged. *)
Theorem pendingByDate_flagged_iff
    (allLicenze : list Licenza.t) (tipo data_inizio : string) :
  data_inizio ≠ "" →
  no_underscore data_inizio = true →
  start_dates_plain allLicenze →
  (is_Some (pendingByDate allLicenze !! (tipo +:+ "_" +:+ data_inizio)) ↔
   (∃ l, l ∈ allLicenze ∧ same_request tipo data_inizio l ∧
         (Licenza.stato l = str "Presentata" ∨ Licenza.stato l = str "Validata")) ∧
   (∀ x, x ∈ allLicenze → same_request tipo data_inizio x →
         Licenza.stato x ≠ str "Approvata" ∧ Licenza.stato x ≠ str "Rifiutata" ∧
         Licenza.stato x ≠ str "Annullata")) ∧
  (∀ x, x ∈ allLicenze → same_request tipo data_inizio x →
        Licenza.stato x = str "Approvata" ∨ Licenza.stato x = str "Rifiutata" ∨
        Licenza.stato x = str "Annullata" →
        pendingByDate allLicenze !! (tipo +:+ "_" +:+ data_inizio) = None).
Proof.
  intros Hd Hplain Hall.
  assert (Hiff : is_Some (pendingByDate allLicenze !! (tipo +:+ "_" +:+ data_inizio)) ↔
   (∃ l, l ∈ allLicenze ∧ same_request tipo data_inizio l ∧
         (Licenza.stato l = str "Presentata" ∨ Licenza.stato l = str "Validata")) ∧
   (∀ x, x ∈ allLicenze → same_request tipo data_inizio x →
         Licenza.stato x ≠ str "Approvata" ∧ Licenza.stato x ≠ str "Rifiutata" ∧
         Licenza.stato x ≠ str "Annullata")).
  { unfold pendingByDate. rewrite pending_fold by done. split.
    - intros (l & Hin & [Ht Hdl] & Hp & Hr).
      split; [exists l; by rewrite <- is_pending_iff|].
      intros x Hx [Htx Hdx]. rewrite hasResolved_false in Hr.
      apply is_resolved_false_iff. apply Hr; [done | congruence | congruence].
    - intros [(l & Hin & [Ht Hdl] & Hp) Hno]. exists l.
      rewrite is_pending_iff. repeat split; try done.
      apply hasResolved_false. intros x Hx Htx Hdx.
      apply is_resolved_false_iff. apply Hno; [done|].
      split; congruence. }
  split; [done|].
  intros x Hx Hsame Hres.
  destruct (pendingByDate allLicenze !! _) as [r|] eqn:E; [|done].
  assert (is_Some (Some r)) as Hs by (by eexists).
  apply Hiff in Hs as [_ Hno].
  destruct (Hno x Hx Hsame) as (? & ? & ?). by destruct Hres as [?|[?|?]].
Qed.

(** C4 at the spec's example: a lone submitted record of (B, 2025-02-01)
    is flagged; with a rejected record of the same request in the input,
    here even ahead of it, the key is not flagged.  In the same way a
    validated record is flagged, a record of another status alone is not,
    and an approved or a cancelled record clears the flag. *)
Lemma pendingByDate_flagged_iff_example :
  is_Some (pendingByDate licenze_B !! "B_2025-02-01") ∧
  pendingByDate licenze_B_rejected !! "B_2025-02-01" = None ∧
  is_Some (pendingByDate [lic "B" "2025-02-01" "Validata"] !! "B_2025-02-01") ∧
  ¬ is_Some (pendingByDate [lic "B" "2025-02-01" "Bozza"] !! "B_2025-02-01") ∧
  pendingByDate [lic "B" "2025-02-01" "Validata"; lic "B" "2025-02-01" "Approvata"]
    !! "B_2025-02-01" = None ∧
  pendingByDate [lic "B" "2025-02-01" "Annullata"; lic "B" "2025-02-01" "Presentata"]
    !! "B_2025-02-01" = None.
Proof.
  assert (Hd : "2025-02-01" ≠ "") by discriminate.
  assert (Hp : ∀ ls, Forall (fun l => Licenza.data_inizio l = str "2025-02-01") ls →
                     start_dates_plain ls).
  { intros ls H. eapply Forall_impl; [exact H|].
    intros l Hl s Hs. rewrite Hl in Hs. by injection Hs as <-. }
  split; [|split; [|split; [|split; [|split]]]].
  - apply (pendingByDate_flagged_iff licenze_B "B" "2025-02-01" Hd eq_refl).
    + apply Hp. by repeat constructor.
    + split.
      * exists (lic "B" "2025-02-01" "Presentata"). split; [by left|].
        split; [done|by left].
      * intros x [->|[]%elem_of_nil]%elem_of_cons _. done.
  - apply (pendingByDate_flagged_iff licenze_B_rejected "B" "2025-02-01" Hd eq_refl)
      with (x := lic "B" "2025-02-01" "Rifiutata").
    + apply Hp. by repeat constructor.
    + by left.
    + done.
    + right. by left.
  - apply (pendingByDate_flagged_iff [lic "B" "2025-02-01" "Validata"]
             "B" "2025-02-01" Hd eq_refl).
    + apply Hp. by repeat constructor.
    + split.
      * exists (lic "B" "2025-02-01" "Validata"). split; [by left|].
        split; [done|by right].
      * intros x [->|[]%elem_of_nil]%elem_of_cons _. done.
  - intros Hs.
    apply (pendingByDate_flagged_iff [lic "B" "2025-02-01" "Bozza"]
             "B" "2025-02-01" Hd eq_refl) in Hs.
    + destruct Hs as [(l & [->|[]%elem_of_nil]%elem_of_cons & _ & [?|?]) _]; done.
    + apply Hp. by repeat constructor.
  - apply (pendingByDate_flagged_iff
             [lic "B" "2025-02-01" "Validata"; lic "B" "2025-02-01" "Approvata"]
             "B" "2025-02-01" Hd eq_refl)
      with (x := lic "B" "2025-02-01" "Approvata").
    + apply Hp. by repeat constructor.
    + right. by left.
    + done.
    + by left.
  - apply (pendingByDate_flagged_iff
             [lic "B" "2025-02-01" "Annullata"; lic "B" "2025-02-01" "Presentata"]
             "B" "2025-02-01" Hd eq_refl)
      with (x := lic "B" "2025-02-01" "Annullata").
    + apply Hp. by repeat constructor.
    + by left.
    + done.
    + right. by right.
Defined.

(** ** Removed shifts in the projections of a day *)

(** C6 at a day whose first shift is a removed absence followed by the
    active worked shift.  The day detail shows the worked shift alone;
    the list item and the export row are built from the first shift
    whatever its status, and show the removed absence: badge RS, label
    "Riposo Settimanale", type column ASSENZA; the list filtered on
    "presenza" leaves the day out. *)
Lemma removed_shift_shown_in_list_and_export :
  turniAttivi giornata_corretta = [turno_attivo] ∧
  showDayDetail_rows false giornata_corretta
  = [row_turno "Orario" (str "08:00") (str "14:00") (Some 6%float);
     row_ore "Ore Totali" 6 false; row_ore "Ore Ordinarie" 6 false;
     row_ore "Straordinario" 0 false] ∧
  (∀ localeCompare,
     renderGiornataItem localeCompare giornata_corretta
     = mk_item "riposo" "riposo" "RS" "Riposo Settimanale" None ∧
     renderServizi localeCompare "presenza" [giornata_corretta] = []) ∧
  (∀ getDay, col_tipo (exportCSV_row getDay giornata_corretta) = "ASSENZA").
Proof.
  split; [reflexivity|]. split; [vm_compute; reflexivity|].
  split; [intros lc; split; vm_compute; reflexivity|].
  intros gd. reflexivity.
Qed.

(** ** Annual leave balance *)

Lemma obj_get_None {V} k (o : entries V) : obj_get k o = None ↔ k ∉ o.*1.
Proof.
  unfold obj_get. induction o as [|[k' v] o IH]; simpl.
  - split; [intros _; apply not_elem_of_nil | done].
  - case_bool_decide as Hk; simpl.
    + subst k'. split; [done|]. intros H. destruct H. by left.
    + rewrite IH, not_elem_of_cons. simpl. split; [by split | by intros [_ ?]].
Qed.

Lemma template_start_eq x l :
  has_start x → has_start l →
  template (Licenza.data_inizio x) = template (Licenza.data_inizio l) ↔
  Licenza.data_inizio x = Licenza.data_inizio l.
Proof.
  intros [dx Hx] [dl Hl]. rewrite Hx, Hl. simpl. split; congruence.
Qed.

Lemma first_per_start_elem ls x : x ∈ first_per_start ls → x ∈ ls.
Proof.
  induction ls as [|l r IH]; simpl; [done|].
  intros [->|[_ Hx]%list_elem_of_filter]%elem_of_cons; [by left|].
  right. by apply IH.
Qed.

Lemma licenzeByDate_fold ls : ∀ o,
  Forall has_start ls →
  (foldl licenzeByDate_step o ls).*2 =
  o.*2 ++ filter (fun x => template (Licenza.data_inizio x) ∉ o.*1)
                 (first_per_start ls).
Proof.
  induction ls as [|l r IH]; intros o Hls; simpl.
  - by rewrite app_nil_r.
  - apply Forall_cons in Hls as [Hl Hr].
    assert (Hstart : ∀ x, x ∈ first_per_start r → has_start x).
    { intros x Hx%first_per_start_elem. by apply (proj1 (Forall_forall _ _) Hr). }
    rewrite IH by done. unfold licenzeByDate_step.
    destruct (obj_get _ o) as [v|] eqn:Eget.
    + f_equal. rewrite filter_cons_False.
      2:{ intros Hno. apply obj_get_None in Hno. congruence. }
      rewrite list_filter_filter. apply filter_ext_elem. intros x Hx.
      split; [|by intros [? _]]. intros Hx'. split; [done|].
      intros Heq. apply Hx'. rewrite Heq.
      destruct (decide (template (Licenza.data_inizio l) ∈ o.*1)) as [|Hno]; [done|].
      apply obj_get_None in Hno. congruence.
    + apply obj_get_None in Eget.
      rewrite filter_cons_True by done.
      rewrite fmap_app, <- app_assoc. simpl. do 2 f_equal.
      rewrite list_filter_filter. apply filter_ext_elem. intros x Hx.
      rewrite fmap_app, not_elem_of_app. simpl.
      pose proof (template_start_eq x l (Hstart x Hx) Hl) as Ht.
      rewrite list_elem_of_singleton, Ht. tauto.
Qed.

(** The values of [licenzeByDate] are the counted records, the first of
    each start date. *)
Lemma licenzeByDate_first_per_start thisYear allLicenze :
  (licenzeByDate thisYear allLicenze).*2
  = first_per_start (List.filter (counted thisYear) allLicenze).
Proof.
  unfold licenzeByDate. rewrite licenzeByDate_fold.
  - simpl. apply filter_all. intros x _. apply not_elem_of_nil.
  - apply Forall_forall. intros l Hl%list_elem_of_In.
    apply filter_In in Hl as [_ Hc]. unfold counted in Hc.
    apply andb_true_iff in Hc as [_ Hc].
    destruct (Licenza.data_inizio l) as [| |d] eqn:Ed; try done. by exists d.
Qed.

Lemma ceil_div_days k : 0 ≤ k → ceil_div (k * 86400000) (1000 * 60 * 60 * 24) = k.
Proof.
  intros Hk. unfold ceil_div. change (1000 * 60 * 60 * 24) with 86400000.
  rewrite <- Z.mul_opp_l, Z.div_mul by done. lia.
Qed.

(** On a record with a start date the code counts the inclusive days. *)
Lemma diffDays_inclusive l :
  truthy (Licenza.data_inizio l) = true → diffDays l = inclusive_days l.
Proof.
  unfold truthy, diffDays, inclusive_days, Date_getTime.
  destruct (as_truthy (Licenza.data_inizio l)) as [di|]; [intros _|done].
  destruct (as_truthy (Licenza.data_fine l)) as [df|]; [|done].
  destruct (day_number di) as [a|]; [|done].
  destruct (day_number df) as [b|]; [|done]. simpl.
  replace (Z.abs (b * 86400000 - a * 86400000)) with (Z.abs (b - a) * 86400000) by lia.
  rewrite ceil_div_days by lia. done.
Qed.

Lemma add_days_sum dd days : ∀ n,
  Forall2 (fun l d => diffDays l = Some d) dd days →
  foldl add_days (Some n) dd = Some (n + sum_days days).
Proof.
  intros n H. revert n.
  induction H as [|l d dd days Hd _ IH]; intros n; simpl.
  - f_equal. lia.
  - rewrite Hd. simpl. rewrite IH. f_equal. lia.
Qed.

Lemma pretty_N_go_ne_nil x s : s ≠ "" → pretty_N_go x s ≠ "".
Proof.
  revert s. induction (N.lt_wf_0 x) as [x _ IH]; intros s Hs.
  destruct (decide (x = 0)%N) as [->|Hx]; [by rewrite pretty_N_go_0|].
  rewrite pretty_N_go_step by lia. apply IH; [|done].
  apply N.div_lt; lia.
Qed.

Lemma pretty_N_ne_nil (x : N) : pretty x ≠ "".
Proof.
  unfold pretty, pretty_N. case_decide as Hx; [done|].
  rewrite pretty_N_go_step by lia. by apply pretty_N_go_ne_nil.
Qed.

Lemma counted_truthy thisYear l :
  counted thisYear l = true → truthy (Licenza.data_inizio l) = true.
Proof.
  unfold counted. intros [_ Hc]%andb_true_iff.
  destruct (Licenza.data_inizio l) as [| |d]; try done.
  apply truthy_str. intros ->.
  destruct (pretty thisYear) eqn:E; [|done].
  by apply pretty_N_ne_nil in E.
Qed.

Lemma List_filter_Prop {A} (f : A → bool) (l : list A) :
  List.filter f l = filter (fun x => f x = true) l.
Proof.
  induction l as [|x l IH]; [done|]. simpl. rewrite filter_cons, IH.
  destruct (f x); [by rewrite decide_True | by rewrite decide_False].
Qed.

(** The filter of app.js 1050 keeps the approved ordinary requests of the
    year. *)
Lemma counted_iff thisYear l :
  counted thisYear l = true ↔ approved_ordinary_in thisYear l.
Proof.
  unfold counted, approved_ordinary_in.
  rewrite !andb_true_iff, !bool_decide_eq_true.
  destruct (Licenza.data_inizio l) as [| |d].
  - split; [by intros [_ ?]|by intros (_ & _ & d & ? & _)].
  - split; [by intros [_ ?]|by intros (_ & _ & d & ? & _)].
  - split.
    + intros [[? ?] ?]. eauto.
    + intros (? & ? & d' & [= <-] & ?). done.
Qed.

Lemma counted_filter thisYear allLicenze :
  List.filter (counted thisYear) allLicenze
  = filter (approved_ordinary_in thisYear) allLicenze.
Proof.
  rewrite List_filter_Prop. apply list_filter_iff. intros l. apply counted_iff.
Qed.

(** C7.  [giorniUsati] is the sum, over the approved requests of the
    ordinary type whose start date begins with the current year,
    deduplicated by start date (the first such record of each date), of
    the calendar days from start to end, both included, one day when
    there is no end date; and [giorniRimanenti] is the configured
    allowance minus that sum.  The dates of the counted requests are
    calendar dates written YYYY-MM-DD ([inclusive_days] is defined on
    them). *)
Theorem giorniUsati_inclusive_days
    (s : settings) (thisYear : N) (allLicenze : list Licenza.t) (days : list Z) :
  Forall2 (fun l d => inclusive_days l = Some d)
          (first_per_start (filter (approved_ordinary_in thisYear) allLicenze))
          days →
  giorniUsati thisYear allLicenze = Some (sum_days days) ∧
  giorniRimanenti s thisYear allLicenze
  = Some (giorniLicenzaAnnuale s - sum_days days).
Proof.
  intros Hdays. rewrite <- counted_filter in Hdays.
  assert (Hused : giorniUsati thisYear allLicenze = Some (sum_days days)).
  { unfold giorniUsati. rewrite licenzeByDate_first_per_start.
    rewrite (add_days_sum _ days); [done|].
    eapply Forall2_impl_elem; [exact Hdays|].
    intros l d Hl%first_per_start_elem Hd.
    rewrite diffDays_inclusive; [done|].
    apply list_elem_of_In, filter_In in Hl as [_ Hc].
    by apply (counted_truthy thisYear). }
  split; [done|]. unfold giorniRimanenti. by rewrite Hused.
Qed.

(** C7 at sample data: the request 2025-06-10 to 2025-06-12 counts 3 days.
    Among an open record of that start date reaching to 2025-06-20, the
    approved record to 2025-06-12, approved leave of another type and of
    another year and a one-day request, the approved ordinary records of
    2025 alone count: 3 + 1 = 4 days are used and 28 of the default 32
    remain. *)
Lemma giorniUsati_inclusive_days_example :
  (giorniUsati 2025 [lic_range "ordinaria" "2025-06-10" "2025-06-12" "Approvata"]
   = Some 3 ∧
   giorniRimanenti DEFAULT_SETTINGS 2025
     [lic_range "ordinaria" "2025-06-10" "2025-06-12" "Approvata"] = Some 29) ∧
  (giorniUsati 2025 licenze_2025_miste = Some 4 ∧
   giorniRimanenti DEFAULT_SETTINGS 2025 licenze_2025_miste = Some 28).
Proof.
  split.
  - apply (giorniUsati_inclusive_days DEFAULT_SETTINGS 2025%N _ [3]).
    repeat constructor.
  - apply (giorniUsati_inclusive_days DEFAULT_SETTINGS 2025%N licenze_2025_miste [3; 1]).
    assert (first_per_start (filter (approved_ordinary_in 2025) licenze_2025_miste)
            = [lic_range "ordinaria" "2025-06-10" "2025-06-12" "Approvata";
               lic "ordinaria" "2025-08-01" "Approvata"]) as ->
      by (vm_compute; reflexivity).
    repeat constructor.
Defined.

(** *** The counted requests are current records *)

Lemma rank_le_5 v : rank v ≤ 5.
Proof. destruct (rank_cases v) as [?|[[_ ?]|[[_ ?]|[[_ ?]|[[_ ?]|[_ ?]]]]]]; lia. Qed.

Lemma rank_5 v : rank v = 5 ↔ v = str "Approvata".
Proof.
  split; [|by intros ->].
  destruct (rank_cases v) as [?|[[? ?]|[[_ ?]|[[_ ?]|[[_ ?]|[_ ?]]]]]]; (done || lia).
Qed.

Lemma first_per_start_head F x :
  x ∈ first_per_start F ↔
  head (filter (fun y => Licenza.data_inizio y = Licenza.data_inizio x) F) = Some x.
Proof.
  induction F as [|l r IH]; simpl.
  - split; [by intros ?%elem_of_nil | done].
  - rewrite elem_of_cons, list_elem_of_filter, IH, filter_cons.
    destruct (decide (Licenza.data_inizio l = Licenza.data_inizio x)) as [Heq|Hne]; simpl.
    + split; [intros [->|[Hne _]]; [done | congruence] | intros [= ->]; by left].
    + split; [intros [->|[_ ?]]; done | intros ?; right; split; [congruence | done]].
Qed.

(** The head of the approved records of a group is its current record
    when that record is approved. *)
Lemma current_of_approved group r :
  current_of group (Some r) → Licenza.stato r = str "Approvata" →
  head (filter (fun y => Licenza.stato y = str "Approvata") group) = Some r.
Proof.
  intros (pre & post & -> & Hpre & _) Hr.
  rewrite filter_app, filter_cons_True by done.
  rewrite filter_none; [done|].
  intros y Hy Hy'. apply (proj1 (Forall_forall _ _) Hpre) in Hy.
  rewrite Hr, Hy' in Hy. simpl in Hy. lia.
Qed.

(** For start dates that are plain dates and statuses that are no
    inherited names: the records that [updateSettingsInfo] counts (the
    values of its [licenzeByDate]) are the approved ordinary requests of
    the current year that are current records ([renderLicenze]'s
    resolution): its own deduplication by start date keeps, for each such
    request, the record that the resolution by priority keeps. *)
Theorem counted_are_current
    (inherited_text : string → string)
    (thisYear : N) (allLicenze : list Licenza.t) (l : Licenza.t) :
  start_dates_plain allLicenze →
  statuses_plain allLicenze →
  l ∈ (licenzeByDate thisYear allLicenze).*2 ↔
  l ∈ allLicenze ∧ approved_ordinary_in thisYear l ∧
  licenzeByKey inherited_text allLicenze !! licenza_key l = Some l.
Proof.
  intros Hplain Hst. rewrite licenzeByDate_first_per_start, <- counted_iff.
  cut (l ∈ allLicenze → counted thisYear l = true →
       (l ∈ first_per_start (List.filter (counted thisYear) allLicenze) ↔
        licenzeByKey inherited_text allLicenze !! licenza_key l = Some l)).
  { intros Hcut. split.
    - intros Hin. pose proof (first_per_start_elem _ _ Hin) as Hl.
      apply list_elem_of_In, filter_In in Hl as [Hl Hc].
      apply list_elem_of_In in Hl. repeat split; try done. by apply Hcut.
    - intros (Hl & Hc & Hk). by apply Hcut. }
  intros Hl Hc.
  pose proof (counted_truthy _ _ Hc) as (d & Ed & Hd)%truthy_inv.
  pose proof (proj1 (Forall_forall _ _) Hplain l Hl d Ed) as Hnu.
  pose proof Hc as Hc'. unfold counted in Hc'. rewrite Ed in Hc'.
  apply andb_true_iff in Hc' as [Hc' Hyear].
  apply andb_true_iff in Hc' as [Ht Hs].
  apply bool_decide_eq_true in Ht, Hs.
  assert (Hkey : licenza_key l = "ordinaria" +:+ "_" +:+ d)
    by (unfold licenza_key; by rewrite Ht, Ed).
  pose proof (licenzeByKey_current inherited_text allLicenze "ordinaria" d
                Hd Hnu Hplain Hst) as Hcur.
  rewrite <- Hkey in Hcur.
  rewrite first_per_start_head, List_filter_Prop, list_filter_filter.
  assert (Hgroup : filter (fun y => Licenza.data_inizio y = Licenza.data_inizio l
                                    ∧ counted thisYear y = true) allLicenze
                   = filter (fun y => Licenza.stato y = str "Approvata")
                            (filter (same_request "ordinaria" d) allLicenze)).
  { rewrite list_filter_filter. apply list_filter_iff. intros y.
    unfold same_request, counted. rewrite Ed. split.
    - intros [Hy Hcy]. rewrite Hy in Hcy.
      apply andb_true_iff in Hcy as [Hcy _]. apply andb_true_iff in Hcy as [Hty Hsy].
      apply bool_decide_eq_true in Hty, Hsy. done.
    - intros (Hsy & Hty & Hy). split; [done|].
      rewrite Hy, Hyear, !bool_decide_eq_true_2; done. }
  rewrite Hgroup.
  assert (Hlg : l ∈ filter (same_request "ordinaria" d) allLicenze)
    by (by apply list_elem_of_filter).
  destruct (licenzeByKey inherited_text allLicenze !! licenza_key l) as [r|];
    simpl in Hcur.
  - assert (Hr : Licenza.stato r = str "Approvata").
    { apply rank_5. pose proof (rank_le_5 (Licenza.stato r)).
      assert (rank (Licenza.stato l) = 5) by (by rewrite Hs).
      destruct Hcur as (pre & post & Hg & Hpre & Hpost). rewrite Hg in Hlg.
      apply elem_of_app in Hlg as [Hin|[->|Hin]%elem_of_cons]; [| done |].
      - apply (proj1 (Forall_forall _ _) Hpre) in Hin. lia.
      - apply (proj1 (Forall_forall _ _) Hpost) in Hin. lia. }
    rewrite (current_of_approved _ _ Hcur Hr). split; congruence.
  - rewrite Hcur in Hlg. by apply elem_of_nil in Hlg.
Qed.

Lemma counted_are_current_example :
  lic_range "ordinaria" "2025-06-10" "2025-06-12" "Approvata"
  ∈ (licenzeByDate 2025 licenze_2025).*2.
Proof.
  apply (counted_are_current (fun name => name)).
  - repeat constructor; intros s [= <-]; reflexivity.
  - repeat constructor; apply (bool_decide_unpack _); vm_compute; exact I.
  - split; [right; by left|]. split; [|vm_compute; reflexivity].
    repeat split. by exists "2025-06-10".
Defined.

(** *** The day number is the calendar's *)

Lemma valid_date_month y m d :
  valid_date y m d = true →
  (m = 1 ∨ m = 2 ∨ m = 3 ∨ m = 4 ∨ m = 5 ∨ m = 6 ∨ m = 7 ∨ m = 8 ∨ m = 9
   ∨ m = 10 ∨ m = 11 ∨ m = 12) ∧ 1 ≤ d ≤ days_in_month y m.
Proof.
  unfold valid_date. intros H. repeat (apply andb_true_iff in H as [H ?]). lia.
Qed.

Lemma days_in_month_bounds y m : 28 ≤ days_in_month y m ≤ 31.
Proof.
  unfold days_in_month.
  repeat match goal with |- context [if ?b then _ else _] => destruct b end; lia.
Qed.

Lemma valid_date_intro y m d :
  1 ≤ m ≤ 12 → 1 ≤ d ≤ days_in_month y m → valid_date y m d = true.
Proof. intros. unfold valid_date. repeat (apply andb_true_iff; split); lia. Qed.

Lemma is_leap_spec y :
  is_leap y = true ↔ (y mod 4 = 0 ∧ y mod 100 ≠ 0) ∨ y mod 400 = 0.
Proof.
  unfold is_leap.
  rewrite orb_true_iff, andb_true_iff, negb_true_iff, !Z.eqb_eq, Z.eqb_neq. done.
Qed.

Ltac split_tests :=
  repeat match goal with
         | |- context [if ?a <=? ?b then _ else _] =>
             destruct (Z.leb_spec a b); try lia
         | |- context [if ?a =? ?b then _ else _] =>
             destruct (Z.eqb_spec a b); try lia
         end;
  simpl orb; cbv iota.

(** The day after a calendar date is a calendar date, and its day number
    is one more: [days_from_civil] numbers the days of the calendar
    consecutively, so the difference of two day numbers, plus one, is the
    count of the days from one date to the other, both included. *)
Lemma days_from_civil_next_day y m d :
  valid_date y m d = true →
  match next_day y m d with
  | (y', m', d') =>
      valid_date y' m' d' = true ∧
      days_from_civil y' m' d' = days_from_civil y m d + 1
  end.
Proof.
  intros Hv. apply valid_date_month in Hv as [Hm Hd].
  unfold next_day.
  destruct (Z.ltb_spec d (days_in_month y m)) as [Hlt|Hge].
  { split; [apply valid_date_intro; lia | unfold days_from_civil; lia]. }
  assert (d = days_in_month y m) as -> by lia. clear Hd Hge.
  pose proof (days_in_month_bounds y (m + 1)).
  pose proof (days_in_month_bounds (y + 1) 1).
  destruct (Z.ltb_spec m 12) as [Hlt|Hge];
    (split; [apply valid_date_intro; lia|]).
  - unfold days_from_civil, days_in_month.
    destruct Hm as [->|[->|[->|[->|[->|[->|[->|[->|[->|[->|[->| ->]]]]]]]]]]];
      try lia; split_tests; try (Z.div_mod_to_equations; lia).
    destruct (is_leap y) eqn:El;
      [apply is_leap_spec in El
      |apply not_true_iff_false in El; rewrite is_leap_spec in El];
      Z.div_mod_to_equations; lia.
  - assert (m = 12) as -> by lia.
    unfold days_from_civil, days_in_month. split_tests.
    Z.div_mod_to_equations; lia.
Qed.

Example day_number_epoch : day_number "1970-01-01" = Some 0.
Proof. reflexivity. Qed.

Example day_number_leap :
  day_number "2024-02-29" = Some 19782 ∧ day_number "2024-03-01" = Some 19783 ∧
  day_number "2025-02-29" = None.
Proof. repeat split; reflexivity. Qed.

Example inclusive_days_june :
  inclusive_days (lic_range "ordinaria" "2025-06-10" "2025-06-12" "Approvata") = Some 3.
Proof. reflexivity. Qed.

(** ** Hours of a manual entry *)

(** Every duration below 24 hours, by evaluation. *)
Lemma ore_check_all :
  forallb (fun n => ore_check (Z.of_nat n)) (seq 0 1440) = true.
Proof. vm_compute. reflexivity. Qed.

Lemma ore_check_range m : 0 ≤ m < 1440 → ore_check m = true.
Proof.
  intros Hm.
  pose proof (proj1 (forallb_forall _ _) ore_check_all (Z.to_nat m)) as H.
  cbv beta in H. rewrite Z2Nat.id in H by lia. apply H.
  apply in_seq. lia.
Qed.

Lemma centesimi_split m :
  0 ≤ m → Z.min (centesimi m) 600 + Z.max 0 (centesimi m - 600) = centesimi m.
Proof. lia. Qed.

(** C10, as the code has it.  For a form whose type is not ASSENZA and
    whose times read as hours below 24 and minutes below 60, let [m] be
    the minutes from start to end, 24 hours added when the end is earlier
    than the start, and [T] the hundredths of an hour in [m] minutes
    (rounded, a half going up).  The day record and its shift hold
    ore_totali = T/100, ore_ordinarie = min(T, 600)/100 and
    ore_straordinario = max(0, T - 600)/100, each the binary64 quotient
    by 100; the shift is overtime exactly when [m] exceeds 360; and in
    hundredths ordinary plus overtime is the total. *)
Theorem saveManualEntry_hours
    (now : string) (f : form) (hI mI hF mF : Z) :
  addTipo f ≠ "ASSENZA" →
  parse_ora (addOraInizio f) = Some (hI, mI) →
  parse_ora (addOraFine f) = Some (hF, mF) →
  0 ≤ hI < 24 → 0 ≤ mI < 60 → 0 ≤ hF < 24 → 0 ≤ mF < 60 →
  let g := saveManualEntry_giornata now f in
  let m := if hF * 60 + mF <? hI * 60 + mI
           then hF * 60 + mF + 24 * 60 - (hI * 60 + mI)
           else hF * 60 + mF - (hI * 60 + mI) in
  let T := centesimi m in
  num_is (Giornata.ore_totali g) (ore T) ∧
  num_is (Giornata.ore_ordinarie g) (ore (Z.min T 600)) ∧
  num_is (Giornata.ore_straordinario g) (ore (Z.max 0 (T - 600))) ∧
  (∃ t, Giornata.turni g = [t] ∧
        num_is (Turno.durata_ore t) (ore T) ∧
        num_is (Turno.ore_ordinarie t) (ore (Z.min T 600)) ∧
        num_is (Turno.ore_straordinario t) (ore (Z.max 0 (T - 600))) ∧
        Turno.is_straordinario t = (360 <? m)) ∧
  Z.min T 600 + Z.max 0 (T - 600) = T.
Proof.
  intros Htipo HI HF HhI HmI HhF HmF g m T.
  assert (Hm : 0 ≤ m < 1440) by (subst m; destruct (_ <? _) eqn:E; lia).
  assert (Hd : durata_minuti (addOraInizio f) (addOraFine f) = Some m).
  { unfold durata_minuti. rewrite HI, HF. subst m. by destruct (_ <? _). }
  pose proof (ore_check_range m Hm) as Hc. unfold ore_check in Hc.
  repeat (apply andb_true_iff in Hc as [Hc ?]).
  apply Bool.eqb_prop in H.
  subst g. unfold saveManualEntry_giornata.
  rewrite bool_decide_eq_false_2 by done. cbv zeta. simpl.
  unfold durataOre. rewrite Hd. fold T.
  repeat split; try done.
  - eexists. repeat split; done.
  - subst T. apply centesimi_split. lia.
Qed.

(** C10 at 22:00 to 06:00: eight hours across midnight, six ordinary and
    two overtime. *)
Lemma saveManualEntry_hours_example :
  num_is (Giornata.ore_totali (saveManualEntry_giornata "" form_2200_0600)) (ore 800) ∧
  num_is (Giornata.ore_ordinarie (saveManualEntry_giornata "" form_2200_0600)) (ore 600) ∧
  num_is (Giornata.ore_straordinario (saveManualEntry_giornata "" form_2200_0600)) (ore 200).
Proof.
  destruct (saveManualEntry_hours "" form_2200_0600 22 0 6 0)
    as (Ht & Ho & Hs & _); try done.
Defined.

(** C10 as stated fails in binary64: from 08:00 to 16:07 the record holds
    8.12, 6 and 2.12 hours, and 6 + 2.12 is not 8.12. *)
Lemma saveManualEntry_sum_inexact :
  Giornata.ore_totali (saveManualEntry_giornata "" form_0800_1607) = Some (ore 812) ∧
  Giornata.ore_ordinarie (saveManualEntry_giornata "" form_0800_1607) = Some (ore 600) ∧
  Giornata.ore_straordinario (saveManualEntry_giornata "" form_0800_1607) = Some (ore 212) ∧
  PrimFloat.eqb (ore 600 + ore 212) (ore 812) = false ∧
  PrimFloat.ltb (ore 812) (ore 600 + ore 212) = true.
Proof. repeat split; vm_compute; reflexivity. Qed.

(** ** The pending alert as a whole *)

(** The records that make [checkPendingLicenze] flag a key. *)
Lemma pending_fold_key allLicenze k : ∀ part (m : gmap string Licenza.t),
  is_Some (foldl (pending_step allLicenze) m part !! k) ↔
  is_Some (m !! k) ∨
  ∃ l, l ∈ part ∧ is_pending (Licenza.stato l) = true ∧
       truthy (Licenza.data_inizio l) = true ∧
       hasResolved allLicenze l = false ∧
       licenza_key l = k ∧ k ≠ "__proto__".
Proof.
  induction part as [|l part IH]; intros m; simpl.
  - split; [by left|]. intros [?|(l & Hl%elem_of_nil & _)]; done.
  - rewrite IH. unfold pending_step.
    destruct (is_pending (Licenza.stato l)) eqn:Ep,
             (truthy (Licenza.data_inizio l)) eqn:Et,
             (hasResolved allLicenze l) eqn:Er; simpl;
      try (split;
           [intros [?|(l' & Hl' & H)]; [by left | right; exists l'; split; [by right | done]]
           |intros [?|(l' & [->|Hl']%elem_of_cons & Hp & Htr & Hr & Hk)];
              [by left | congruence | right; by exists l']]).
    case_bool_decide as Hproto.
    { split.
      - intros [?|(l' & Hl' & H)]; [by left|].
        right. exists l'. split; [by right | done].
      - intros [?|(l' & [->|Hl']%elem_of_cons & Hp & Htr & Hr & Hk & Hne)];
          [by left | congruence | right; by exists l']. }
    split.
    + intros [Hs|(l' & Hl' & H)].
      * destruct (decide (licenza_key l = k)) as [<-|Hne].
        -- right. exists l. split; [by left | done].
        -- rewrite lookup_insert_ne in Hs by done. by left.
      * right. exists l'. split; [by right | done].
    + intros [Hs|(l' & [->|Hl']%elem_of_cons & Hp & Htr & Hr & Hk & Hne)].
      * left. destruct (decide (licenza_key l = k)) as [<-|Hne].
        -- rewrite lookup_insert_eq. by eexists.
        -- by rewrite lookup_insert_ne.
      * left. rewrite Hk, lookup_insert_eq. by eexists.
      * right. by exists l'.
Qed.

(** The three tests of lines 679-686 say that the record awaits a
    decision. *)
Lemma awaiting_iff allLicenze l :
  is_pending (Licenza.stato l) = true ∧ truthy (Licenza.data_inizio l) = true ∧
  hasResolved allLicenze l = false ↔ awaiting allLicenze l.
Proof.
  unfold awaiting. rewrite is_pending_iff, hasResolved_false.
  split.
  - intros (Hp & (d & Hd & Hne)%truthy_inv & Hr). split; [done|].
    split; [by exists d|]. intros x Hx Ht Hdx.
    apply is_resolved_false_iff. by apply Hr.
  - intros (Hp & (d & Hd & Hne) & Hr). split; [done|]. split.
    + rewrite Hd. by apply truthy_str.
    + intros x Hx Ht Hdx. apply is_resolved_false_iff. by apply Hr.
Qed.

(** The leave alert is shown exactly when some record awaits a decision:
    it is Presentata or Validata, has a start date, and no record of the
    same type and start date is Approvata, Rifiutata or Annullata.  The
    one exception is a record whose key, type and underscore and start
    date, reads [__proto__]: it is not counted. *)
Theorem alertLicenze_shown_iff (allLicenze : list Licenza.t) :
  alertLicenze_shown allLicenze = true ↔
  ∃ l, l ∈ allLicenze ∧
       (Licenza.stato l = str "Presentata" ∨ Licenza.stato l = str "Validata") ∧
       (∃ d, Licenza.data_inizio l = str d ∧ d ≠ ""
             ∧ Licenza.tipo l +:+ "_" +:+ d ≠ "__proto__") ∧
       ∀ x, x ∈ allLicenze →
            Licenza.tipo x = Licenza.tipo l →
            Licenza.data_inizio x = Licenza.data_inizio l →
            Licenza.stato x ≠ str "Approvata" ∧ Licenza.stato x ≠ str "Rifiutata" ∧
            Licenza.stato x ≠ str "Annullata".
Proof.
  unfold alertLicenze_shown, pending_count. rewrite bool_decide_eq_true.
  split.
  - intros Hpos.
    destruct (map_choose (pendingByDate allLicenze)) as (k & r & Hk).
    { intros Hemp. rewrite Hemp, map_size_empty in Hpos. lia. }
    assert (is_Some (pendingByDate allLicenze !! k)) as Hs by (by eexists).
    apply pending_fold_key in Hs as [Hs|(l & Hl & Hp & Ht & Hr & Hkey & Hne)].
    + rewrite lookup_empty in Hs. by destruct Hs.
    + destruct (proj1 (awaiting_iff allLicenze l)) as (Hst & (d & Hd & Hd') & Hno);
        [done|].
      exists l. split; [done|]. split; [done|]. split; [|done].
      exists d. split; [done|]. split; [done|].
      subst k. unfold licenza_key in Hne. by rewrite Hd in Hne.
  - intros (l & Hl & Hst & (d & Hd & Hd' & Hne) & Hno).
    destruct (proj2 (awaiting_iff allLicenze l)) as (Hp & Ht & Hr).
    { split; [done|]. split; [by exists d|done]. }
    assert (is_Some (pendingByDate allLicenze !! licenza_key l)) as [r Hk].
    { apply pending_fold_key. right. exists l. repeat split; try done.
      unfold licenza_key. by rewrite Hd. }
    destruct (decide (size (pendingByDate allLicenze) = 0%nat)) as [Hz|]; [|lia].
    apply map_size_empty_iff in Hz. rewrite Hz, lookup_empty in Hk. done.
Qed.

(** ** The store of manual entries, and a reload after a change *)

Lemma obj_set_elem_new {V} k v (o : entries V) : (k, v) ∈ obj_set k v o.
Proof.
  induction o as [|[k' v'] o IH]; simpl; [by left|].
  case_bool_decide; [by left | by right].
Qed.

Lemma isManualEntry_obj_set k' (v : Giornata.t) o k :
  isManualEntry (obj_set k' v o) k = bool_decide (k = k') || isManualEntry o k.
Proof.
  unfold isManualEntry. rewrite obj_set_keys.
  apply eq_true_iff_eq. rewrite orb_true_iff, !bool_decide_eq_true.
  case_bool_decide as Hin.
  - split; [by right|]. intros [->|?]; done.
  - rewrite elem_of_app, list_elem_of_singleton. tauto.
Qed.

Lemma saveManualEntry_plain now f o :
  addData f ≠ "__proto__" →
  saveManualEntry now f o = obj_set (addData f) (saveManualEntry_giornata now f) o.
Proof.
  intros Hne. unfold saveManualEntry. by rewrite bool_decide_eq_false_2.
Qed.

Lemma isManualEntry_save now f o k :
  isManualEntry (saveManualEntry now f o) k
  = bool_decide (k = addData f) && negb (bool_decide (addData f = "__proto__"))
    || isManualEntry o k.
Proof.
  unfold saveManualEntry. case_bool_decide as Hp; simpl.
  - rewrite andb_false_r. simpl.
    destruct (isManualEntry o "__proto__") eqn:Eo; simpl; [|done].
    rewrite isManualEntry_obj_set. case_bool_decide as Hk; [|done].
    rewrite Hk, Hp. by rewrite Eo.
  - rewrite andb_true_r. apply isManualEntry_obj_set.
Qed.

Lemma isManualEntry_delete confirmed d o k :
  isManualEntry (deleteManualEntry confirmed d o) k
  = negb (confirmed && bool_decide (k = d)) && isManualEntry o k.
Proof.
  destruct confirmed; [|done]. simpl.
  unfold isManualEntry, deleteManualEntry, obj_delete.
  apply eq_true_iff_eq.
  rewrite andb_true_iff, negb_true_iff, bool_decide_eq_false, !bool_decide_eq_true.
  rewrite !list_elem_of_fmap. split.
  - intros ([k' v] & -> & [Hne Hin]%list_elem_of_filter). split; [done|].
    by exists (k', v).
  - intros [Hne ([k' v] & -> & Hin)]. exists (k', v). split; [done|].
    by apply list_elem_of_filter.
Qed.

Lemma obj_delete_obj_set {V} k (v : V) o :
  obj_delete k (obj_set k v o) = obj_delete k o.
Proof.
  unfold obj_delete.
  induction o as [|[k' v'] o IH]; simpl.
  - by rewrite filter_cons_False, filter_nil by (simpl; tauto).
  - case_bool_decide as Hk.
    + subst k'. by rewrite !filter_cons_False by (simpl; tauto).
    + by rewrite !filter_cons_True, IH by done.
Qed.

Lemma delete_after_save now f o :
  deleteManualEntry true (addData f) (saveManualEntry now f o)
  = deleteManualEntry true (addData f) o.
Proof.
  unfold deleteManualEntry, saveManualEntry.
  destruct (_ && _); [done|]. apply obj_delete_obj_set.
Qed.

(** For a store that has no key [hasOwnProperty] and gets none, so that
    [isManualEntry] can be called: saving marks the date as manually
    entered and changes the mark of no other date; the date [__proto__]
    is not marked unless the store held a key of that name already.
    Deleting, when confirmed, unmarks the date and changes the mark of no
    other date; when refused it leaves the store as it is.  Deleting the
    date just saved leaves the store as deleting it before the save would
    have, so as it was when the date had no manual entry. *)
Theorem manualEntries_save_delete
    (now : string) (f : form) (manualEntries : entries Giornata.t)
    (confirmed : bool) (dateStr k : string) :
  "hasOwnProperty" ∉ manualEntries.*1 →
  addData f ≠ "hasOwnProperty" →
  isManualEntry (saveManualEntry now f manualEntries) k
  = bool_decide (k = addData f) && negb (bool_decide (addData f = "__proto__"))
    || isManualEntry manualEntries k ∧
  isManualEntry (deleteManualEntry confirmed dateStr manualEntries) k
  = negb (confirmed && bool_decide (k = dateStr)) && isManualEntry manualEntries k ∧
  deleteManualEntry false dateStr manualEntries = manualEntries ∧
  deleteManualEntry true (addData f) (saveManualEntry now f manualEntries)
  = if isManualEntry manualEntries (addData f)
    then deleteManualEntry true (addData f) manualEntries
    else manualEntries.
Proof.
  intros _ _.
  split; [apply isManualEntry_save|]. split; [apply isManualEntry_delete|].
  split; [done|].
  rewrite delete_after_save.
  destruct (isManualEntry manualEntries (addData f)) eqn:E; [done|].
  unfold isManualEntry in E. apply bool_decide_eq_false in E.
  apply filter_all. intros [k' v] Hin Hk. simpl in Hk. subst k'.
  apply E, list_elem_of_fmap. by exists (addData f, v).
Qed.

Lemma manualEntries_save_delete_example :
  isManualEntry (saveManualEntry "" form_0800_1607 [("2025-03-02", manual_0302)])
                "2025-03-03"
  = bool_decide ("2025-03-03" = "2025-03-03")
    && negb (bool_decide ("2025-03-03" = "__proto__"))
    || isManualEntry [("2025-03-02", manual_0302)] "2025-03-03" ∧
  isManualEntry (deleteManualEntry true "2025-03-02" [("2025-03-02", manual_0302)])
                "2025-03-03"
  = negb (true && bool_decide ("2025-03-03" = "2025-03-02"))
    && isManualEntry [("2025-03-02", manual_0302)] "2025-03-03" ∧
  deleteManualEntry false "2025-03-02" [("2025-03-02", manual_0302)]
  = [("2025-03-02", manual_0302)] ∧
  deleteManualEntry true "2025-03-03"
    (saveManualEntry "" form_0800_1607 [("2025-03-02", manual_0302)])
  = if isManualEntry [("2025-03-02", manual_0302)] "2025-03-03"
    then deleteManualEntry true "2025-03-03" [("2025-03-02", manual_0302)]
    else [("2025-03-02", manual_0302)].
Proof.
  apply (manualEntries_save_delete "" form_0800_1607 [("2025-03-02", manual_0302)]
           true "2025-03-02" "2025-03-03").
  - apply (bool_decide_unpack _). vm_compute. exact I.
  - discriminate.
Defined.

(** The records of one date after a merge: the feed's, then the entry
    stored under that date when the feed has none. *)
Lemma mergeManualEntries_by_date feed (ov : entries Giornata.t) d :
  NoDup ov.*1 → stored_under_own_date ov →
  filter (has_date d) (mergeManualEntries feed ov)
  = filter (has_date d) feed
    ++ (filter (fun kv => find_by_date feed kv.1 = None)
               (filter (fun kv => kv.1 = d) ov)).*2.
Proof.
  intros Hnd Hown.
  rewrite mergeManualEntries_filter, filter_app by done.
  rewrite filter_has_date_values by (by apply stored_under_own_date_filter).
  by rewrite filter_comm.
Qed.

(** The records of the saved date after [saveManualEntry] and a merge. *)
Lemma mergeManualEntries_saved now f feed (o : entries Giornata.t) :
  NoDup o.*1 → stored_under_own_date o → addData f ≠ "__proto__" →
  filter (has_date (addData f)) (mergeManualEntries feed (saveManualEntry now f o))
  = if find_by_date feed (addData f) is Some _
    then filter (has_date (addData f)) feed
    else [saveManualEntry_giornata now f].
Proof.
  intros Hnd Hown Hne.
  destruct (saveManualEntry_keeps_store now f _ Hnd Hown) as [Hnd' Hown'].
  rewrite mergeManualEntries_by_date by done.
  assert (Hin : (addData f, saveManualEntry_giornata now f) ∈ saveManualEntry now f o)
    by (rewrite saveManualEntry_plain by done; apply obj_set_elem_new).
  rewrite (filter_key_unique _ _ _ Hnd' Hin).
  rewrite filter_cons, filter_nil. simpl.
  destruct (find_by_date feed (addData f)) eqn:E.
  - rewrite decide_False by done. by rewrite app_nil_r.
  - rewrite decide_True by done.
    rewrite filter_none; [done|]. by apply find_by_date_None.
Qed.

(** After [saveManualEntry] of a date other than [__proto__] and the
    reload that follows it, the merged days hold for the saved date the
    feed's records when the feed has that date, and otherwise the new
    record alone, an older manual entry of that date being replaced;
    after [deleteManualEntry] and its reload they hold the feed's records
    of that date and nothing else when the deletion was confirmed, and
    what they held before when it was refused. *)
Theorem reload_after_save_and_delete
    (now : string) (f : form) (confirmed : bool)
    (allGiornate : list Giornata.t) (manualEntries : entries Giornata.t) :
  NoDup manualEntries.*1 →
  stored_under_own_date manualEntries →
  addData f ≠ "__proto__" →
  filter (has_date (addData f))
    (mergeManualEntries allGiornate (saveManualEntry now f manualEntries))
  = (if find_by_date allGiornate (addData f) is Some _
     then filter (has_date (addData f)) allGiornate
     else [saveManualEntry_giornata now f]) ∧
  filter (has_date (addData f))
    (mergeManualEntries allGiornate
       (deleteManualEntry confirmed (addData f)
          (saveManualEntry now f manualEntries)))
  = (if confirmed then filter (has_date (addData f)) allGiornate
     else filter (has_date (addData f))
            (mergeManualEntries allGiornate (saveManualEntry now f manualEntries))).
Proof.
  intros Hnd Hown Hne.
  destruct (saveManualEntry_keeps_store now f _ Hnd Hown) as [Hnd' Hown'].
  destruct (deleteManualEntry_keeps_store true (addData f) _ Hnd' Hown')
    as [Hnd'' Hown''].
  split; [by apply mergeManualEntries_saved|].
  destruct confirmed; [|done].
  rewrite mergeManualEntries_by_date by done.
  unfold deleteManualEntry at 1, obj_delete.
  rewrite (filter_none (fun kv => kv.1 = addData f)).
  - by rewrite filter_nil, app_nil_r.
  - by intros kv [Hk _]%list_elem_of_filter.
Qed.

Lemma reload_after_save_and_delete_example :
  filter (has_date "2025-03-03")
    (mergeManualEntries [feed_0301]
       (saveManualEntry "" form_0800_1607 [("2025-03-02", manual_0302)]))
  = [saveManualEntry_giornata "" form_0800_1607] ∧
  filter (has_date "2025-03-03")
    (mergeManualEntries [feed_0301]
       (deleteManualEntry true "2025-03-03"
          (saveManualEntry "" form_0800_1607 [("2025-03-02", manual_0302)])))
  = [].
Proof.
  apply (reload_after_save_and_delete "" form_0800_1607 true [feed_0301]
           [("2025-03-02", manual_0302)]).
  - apply (bool_decide_unpack _); vm_compute; exact I.
  - repeat constructor.
  - discriminate.
Defined.

(** ** Sorting, the loaded days and the upcoming days *)

Lemma js_insert_Permutation {A} (cmp : A → A → comparison) x l :
  js_insert cmp x l ≡ₚ x :: l.
Proof.
  induction l as [|y l IH]; simpl; [done|].
  destruct (cmp x y); try done; by rewrite IH, Permutation_swap.
Qed.

Lemma js_sort_snoc {A} (cmp : A → A → comparison) l x :
  js_sort cmp (l ++ [x]) = js_insert cmp x (js_sort cmp l).
Proof. unfold js_sort. by rewrite foldl_app. Qed.

(** Sorting loses and adds nothing. *)
Lemma js_sort_Permutation {A} (cmp : A → A → comparison) l :
  js_sort cmp l ≡ₚ l.
Proof.
  induction l as [|x l IH] using rev_ind; [done|].
  rewrite js_sort_snoc, js_insert_Permutation, IH.
  by rewrite Permutation_app_comm.
Qed.

Section Sorted.

Context {A : Type} (cmp : A → A → comparison).

Hypothesis cmp_asym : ∀ a b, cmp a b = Lt → cmp b a ≠ Lt.
Hypothesis in_order_trans :
  ∀ a b c, in_order cmp a b → in_order cmp b c → in_order cmp a c.

Lemma js_insert_sorted x l :
  StronglySorted (in_order cmp) l → StronglySorted (in_order cmp) (js_insert cmp x l).
Proof.
  induction 1 as [|y l Hl IH Hy]; simpl; [repeat constructor|].
  destruct (cmp x y) eqn:E.
  - constructor; [done|].
    apply Forall_forall. intros z Hz.
    rewrite js_insert_Permutation in Hz.
    apply elem_of_cons in Hz as [->|Hz];
      [unfold in_order; congruence | by apply (proj1 (Forall_forall _ _) Hy)].
  - constructor; [by constructor|].
    constructor; [by apply cmp_asym|].
    eapply Forall_impl; [exact Hy|]. intros z Hz.
    eapply in_order_trans; [|exact Hz]. by apply cmp_asym.
  - constructor; [done|].
    apply Forall_forall. intros z Hz.
    rewrite js_insert_Permutation in Hz.
    apply elem_of_cons in Hz as [->|Hz];
      [unfold in_order; congruence | by apply (proj1 (Forall_forall _ _) Hy)].
Qed.

Lemma js_sort_sorted l : StronglySorted (in_order cmp) (js_sort cmp l).
Proof.
  induction l as [|x l IH] using rev_ind; [constructor|].
  rewrite js_sort_snoc. by apply js_insert_sorted.
Qed.

End Sorted.

(** [loadData] leaves in [allGiornate] the merged days, or for another
    year than the current one the feed's days alone, each exactly once;
    and newest first, when [localeCompare] orders the strings (what
    compares less does not compare greater the other way, and "does not
    compare less" is transitive). *)
Theorem loadData_giornate_sorted
    (localeCompare : string → string → comparison)
    (year : option Z) (thisYear : Z)
    (giornate : list Giornata.t) (manualEntries : entries Giornata.t) :
  (∀ a b, localeCompare a b = Lt → localeCompare b a ≠ Lt) →
  (∀ a b c, localeCompare b a ≠ Lt → localeCompare c b ≠ Lt →
            localeCompare c a ≠ Lt) →
  loadData_giornate localeCompare year thisYear giornate manualEntries
  ≡ₚ (if falsy_year year || bool_decide (year = Some thisYear)
      then mergeManualEntries giornate manualEntries else giornate) ∧
  StronglySorted
    (fun a b => localeCompare (str_or (Giornata.data a) "")
                              (str_or (Giornata.data b) "") ≠ Lt)
    (loadData_giornate localeCompare year thisYear giornate manualEntries).
Proof.
  intros Hasym Htrans. split; [apply js_sort_Permutation|].
  unfold loadData_giornate.
  apply (js_sort_sorted (by_data_desc localeCompare)).
  - intros a b. apply Hasym.
  - intros a b c Hab Hbc. unfold in_order, by_data_desc in *.
    eapply Htrans; [exact Hbc | exact Hab].
Qed.

Lemma loadData_giornate_sorted_example :
  loadData_giornate (fun a b => Nat.compare (String.length a) (String.length b))
    (Some 2024) 2025 [feed_0301; feed_blank] [("2025-03-02", manual_0302)]
  ≡ₚ [feed_0301; feed_blank] ∧
  StronglySorted
    (fun a b => Nat.compare (String.length (str_or (Giornata.data a) ""))
                            (String.length (str_or (Giornata.data b) "")) ≠ Lt)
    (loadData_giornate (fun a b => Nat.compare (String.length a) (String.length b))
       (Some 2024) 2025 [feed_0301; feed_blank] [("2025-03-02", manual_0302)]).
Proof.
  apply (loadData_giornate_sorted
           (fun a b => Nat.compare (String.length a) (String.length b))).
  - intros a b. rewrite !Nat.compare_lt_iff. lia.
  - intros a b c. rewrite !Nat.compare_lt_iff. lia.
Defined.

Lemma List_filter_elem {A} (f : A → bool) l x :
  x ∈ List.filter f l ↔ x ∈ l ∧ f x = true.
Proof. rewrite !list_elem_of_In. apply filter_In. Qed.

(** [renderProssimiServizi] shows at most five days, each a day of
    [allGiornate] whose date is a string not less than [today]; it shows
    all such days when they are five or fewer, and those it leaves out
    are among them. *)
Theorem prossimi_upcoming
    (localeCompare : string → string → comparison)
    (today : string) (allGiornate : list Giornata.t) :
  length (prossimi localeCompare today allGiornate)
  = (5 `min` length (List.filter (fun g => data_ge (Giornata.data g) today)
                                 allGiornate))%nat ∧
  (∀ g, g ∈ prossimi localeCompare today allGiornate →
        g ∈ allGiornate ∧
        ∃ d, Giornata.data g = str d ∧ str_ltb d today = false) ∧
  (∃ rest, prossimi localeCompare today allGiornate ++ rest
           ≡ₚ List.filter (fun g => data_ge (Giornata.data g) today) allGiornate).
Proof.
  unfold prossimi.
  set (up := List.filter (fun g => data_ge (Giornata.data g) today) allGiornate).
  pose proof (js_sort_Permutation (by_data_asc localeCompare) up) as Hperm.
  repeat split.
  - rewrite length_take, Hperm. done.
  - apply elem_of_take in H as (i & Hi & _). apply list_elem_of_lookup_2 in Hi.
    rewrite Hperm in Hi. by apply List_filter_elem in Hi as [? _].
  - apply elem_of_take in H as (i & Hi & _). apply list_elem_of_lookup_2 in Hi.
    rewrite Hperm in Hi. apply List_filter_elem in Hi as [_ Hge].
    unfold data_ge in Hge. destruct (Giornata.data g) as [| |d]; try done.
    exists d. split; [done|]. unfold str_leb in Hge. by apply negb_true_iff.
  - exists (drop 5 (js_sort (by_data_asc localeCompare) up)).
    by rewrite take_drop.
Qed.

(** ** The leave list *)

Lemma obj_get_list_to_map {V} k (o : entries V) :
  obj_get k o = (list_to_map o : gmap string V) !! k.
Proof.
  unfold obj_get. induction o as [|[k' v] o IH]; simpl; [by rewrite lookup_empty|].
  case_bool_decide as Hk; simpl.
  - subst k'. by rewrite lookup_insert_eq.
  - by rewrite lookup_insert_ne.
Qed.

Lemma obj_set_list_to_map {V} k v (o : entries V) :
  (list_to_map (obj_set k v o) : gmap string V) = <[k := v]> (list_to_map o).
Proof.
  induction o as [|[k' v'] o IH]; simpl; [done|].
  case_bool_decide as Hk; simpl.
  - subst k'. by rewrite insert_insert_eq.
  - rewrite IH. by apply insert_insert_ne.
Qed.

(** The entries of the object are those of the map of the resolution:
    the same step on both. *)
Lemma licenzeByKey_entries_map inherited_text allLicenze :
  list_to_map (licenzeByKey_entries inherited_text allLicenze)
  = licenzeByKey inherited_text allLicenze.
Proof.
  unfold licenzeByKey_entries, licenzeByKey.
  induction allLicenze as [|l part IH] using rev_ind; [done|].
  rewrite !foldl_app. simpl. rewrite <- IH.
  unfold dedup_step_entries, dedup_step.
  destruct (truthy (Licenza.data_inizio l)); [|done].
  rewrite obj_get_list_to_map.
  destruct (list_to_map _ !! licenza_key l) as [ex|];
    [destruct (js_gt _ _)|]; by rewrite ?obj_set_list_to_map.
Qed.

Lemma licenzeByKey_entries_wf inherited_text allLicenze :
  NoDup (licenzeByKey_entries inherited_text allLicenze).*1 ∧
  Forall (fun kv => kv.1 = licenza_key kv.2 ∧ kv.2 ∈ allLicenze
                    ∧ truthy (Licenza.data_inizio kv.2) = true)
         (licenzeByKey_entries inherited_text allLicenze).
Proof.
  unfold licenzeByKey_entries.
  induction allLicenze as [|l part [IH1 IH2]] using rev_ind;
    [split; constructor|].
  rewrite foldl_app. simpl.
  assert (IH2' : Forall (fun kv => kv.1 = licenza_key kv.2 ∧ kv.2 ∈ part ++ [l]
                    ∧ truthy (Licenza.data_inizio kv.2) = true)
                   (foldl (dedup_step_entries inherited_text) [] part)).
  { eapply Forall_impl; [exact IH2|]. intros kv (? & ? & ?).
    repeat split; try done. apply elem_of_app. by left. }
  unfold dedup_step_entries.
  destruct (truthy (Licenza.data_inizio l)) eqn:Et; [|done].
  assert (Hset :
    NoDup (obj_set (licenza_key l) l
             (foldl (dedup_step_entries inherited_text) [] part)).*1 ∧
    Forall (fun kv => kv.1 = licenza_key kv.2 ∧ kv.2 ∈ part ++ [l]
                    ∧ truthy (Licenza.data_inizio kv.2) = true)
      (obj_set (licenza_key l) l
         (foldl (dedup_step_entries inherited_text) [] part))).
  { split.
    - rewrite obj_set_keys. case_bool_decide as Hin; [done|].
      apply NoDup_app. split; [done|]. split; [|apply NoDup_singleton].
      intros k Hk ->%list_elem_of_singleton. done.
    - apply Forall_forall. intros kv [->|Hin]%obj_set_elem.
      + simpl. repeat split; try done. apply elem_of_app. right. by left.
      + by apply (proj1 (Forall_forall _ _) IH2'). }
  destruct (obj_get _ _) as [ex|]; [destruct (js_gt _ _)|]; done.
Qed.

Lemma statusClass_pending stato :
  is_pending stato = true → statusClass stato = "pending".
Proof.
  unfold is_pending.
  intros [Hs|Hs]%orb_true_iff; apply bool_decide_eq_true in Hs; by subst.
Qed.

Lemma statusClass_rejected stato :
  stato = str "Rifiutata" ∨ stato = str "Annullata" →
  statusClass stato = "rejected".
Proof. by intros [-> | ->]. Qed.

(** For start dates that are plain dates and statuses that are no
    inherited names, the leave list shows at most 30 items.  Each comes
    from a record with a start date that is the current record of its
    request, one of highest rank and the first among equals; its date
    column is never the placeholder N/D; under the filter "pending" the
    record is Presentata or Validata and its status class is pending,
    under "approvate" it is Approvata and the class approved, under
    "rifiutate" it is Rifiutata or Annullata and the class rejected. *)
Theorem renderLicenze_items
    (inherited_text : string → string)
    (localeCompare : string → string → comparison)
    (filter : string) (allLicenze : list Licenza.t) :
  start_dates_plain allLicenze →
  statuses_plain allLicenze →
  (length (renderLicenze inherited_text localeCompare filter allLicenze) ≤ 30)%nat ∧
  ∀ item, item ∈ renderLicenze inherited_text localeCompare filter allLicenze →
    ∃ l d, item = licenza_view inherited_text l ∧ l ∈ allLicenze ∧
         Licenza.data_inizio l = str d ∧ d ≠ "" ∧
         current_of (base.filter (same_request (Licenza.tipo l) d) allLicenze)
                    (Some l) ∧
         item_date item ≠ date_nd ∧
         (filter = "pending" →
            (Licenza.stato l = str "Presentata" ∨ Licenza.stato l = str "Validata")
            ∧ item_class item = "pending") ∧
         (filter = "approvate" →
            Licenza.stato l = str "Approvata" ∧ item_class item = "approved") ∧
         (filter = "rifiutate" →
            (Licenza.stato l = str "Rifiutata" ∨ Licenza.stato l = str "Annullata")
            ∧ item_class item = "rejected").
Proof.
  intros Hplain Hst. split.
  - unfold renderLicenze, renderLicenze_shown.
    rewrite length_fmap, length_take. lia.
  - intros item Hitem. unfold renderLicenze in Hitem.
    apply list_elem_of_fmap in Hitem as (l & -> & Hl).
    unfold renderLicenze_shown in Hl.
    apply elem_of_take in Hl as (i & Hi & _). apply list_elem_of_lookup_2 in Hi.
    rewrite js_sort_Permutation in Hi.
    apply List_filter_elem in Hi as [Hv Hf].
    apply list_elem_of_fmap in Hv as ([k l'] & -> & Hkv). simpl in *.
    destruct (licenzeByKey_entries_wf inherited_text allLicenze) as [Hnd Hwf].
    pose proof (proj1 (Forall_forall _ _) Hwf _ Hkv) as (Hk & Hin & Ht).
    simpl in Hk, Hin, Ht. subst k.
    pose proof Ht as (d & Hd & Hne)%truthy_inv.
    assert (Hlook : licenzeByKey inherited_text allLicenze !! licenza_key l' = Some l').
    { rewrite <- licenzeByKey_entries_map. by apply elem_of_list_to_map_1. }
    pose proof (licenzeByKey_current inherited_text allLicenze (Licenza.tipo l') d
                  Hne (proj1 (Forall_forall _ _) Hplain l' Hin d Hd) Hplain Hst)
      as Hcur.
    unfold licenza_key in Hlook. rewrite Hd in Hlook. simpl in Hlook.
    rewrite Hlook in Hcur.
    exists l', d. repeat split; try done.
    + unfold licenza_date. unfold truthy in Ht.
      destruct (as_truthy (Licenza.data_inizio l')); [|done].
      destruct (as_truthy (Licenza.data_fine l')); [case_bool_decide|]; done.
    + subst filter. by apply is_pending_iff.
    + subst filter. apply statusClass_pending. exact Hf.
    + subst filter. by apply bool_decide_eq_true in Hf.
    + subst filter. apply bool_decide_eq_true in Hf. simpl. by rewrite Hf.
    + subst filter.
      apply orb_true_iff in Hf as [Hf|Hf]; apply bool_decide_eq_true in Hf; auto.
    + subst filter. apply statusClass_rejected.
      apply orb_true_iff in Hf as [Hf|Hf]; apply bool_decide_eq_true in Hf; auto.
Qed.

Lemma renderLicenze_items_example :
  (length (renderLicenze (fun name => name) (fun _ _ => Eq) "approvate" licenze_A)
   ≤ 30)%nat ∧
  ∀ item, item ∈ renderLicenze (fun name => name) (fun _ _ => Eq) "approvate" licenze_A →
    ∃ l d, item = licenza_view (fun name => name) l ∧ l ∈ licenze_A ∧
         Licenza.data_inizio l = str d ∧ d ≠ "" ∧
         current_of (base.filter (same_request (Licenza.tipo l) d) licenze_A)
                    (Some l) ∧
         item_date item ≠ date_nd ∧
         ("approvate" = "pending" →
            (Licenza.stato l = str "Presentata" ∨ Licenza.stato l = str "Validata")
            ∧ item_class item = "pending") ∧
         ("approvate" = "approvate" →
            Licenza.stato l = str "Approvata" ∧ item_class item = "approved") ∧
         ("approvate" = "rifiutate" →
            (Licenza.stato l = str "Rifiutata" ∨ Licenza.stato l = str "Annullata")
            ∧ item_class item = "rejected").
Proof.
  apply (renderLicenze_items (fun name => name) (fun _ _ => Eq) "approvate" licenze_A).
  - repeat constructor; intros s [= <-]; reflexivity.
  - repeat constructor; apply (bool_decide_unpack _); vm_compute; exact I.
Defined.

(** ** The calendar grid and the day detail *)

Lemma string_app_assoc (a b c : string) : (a +:+ b) +:+ c = a +:+ (b +:+ c).
Proof. induction a as [|x a IH]; [done|]. by rewrite !append_cons, IH. Qed.

Lemma startsWith_app p r : startsWith (p +:+ r) p = true.
Proof.
  induction p as [|x p IH]; [rewrite append_nil; by destruct r|].
  rewrite append_cons. simpl. by rewrite Ascii.eqb_refl, IH.
Qed.

Lemma cell_date_monthStr year month day :
  startsWith (cell_date year month day) (monthStr year month) = true.
Proof.
  unfold cell_date, monthStr.
  replace (pretty year +:+ "-" +:+ pad2 (month + 1) +:+ "-" +:+ pad2 day)
    with ((pretty year +:+ "-" +:+ pad2 (month + 1)) +:+ ("-" +:+ pad2 day)).
  - apply startsWith_app.
  - by rewrite !string_app_assoc.
Qed.

Lemma cell_date_ne_nil year month day : cell_date year month day ≠ "".
Proof.
  unfold cell_date. pose proof (pretty_N_ne_nil year) as Hy.
  destruct (pretty year); [done|]. by rewrite append_cons.
Qed.

Lemma in_month_has_date ms k g :
  startsWith k ms = true → k ≠ "" → has_date k g → in_month ms g = true.
Proof.
  unfold has_date, in_month, as_truthy. intros Hs Hk ->.
  by rewrite bool_decide_eq_false_2.
Qed.

Lemma giornateMap_snoc ms all g :
  giornateMap ms (all ++ [g])
  = if in_month ms g then <[template (Giornata.data g) := g]> (giornateMap ms all)
    else giornateMap ms all.
Proof.
  unfold giornateMap. rewrite List.filter_app. simpl.
  destruct (in_month ms g); [by rewrite foldl_app | by rewrite app_nil_r].
Qed.

(** Under a key of the month the map holds the last day of that date. *)
Lemma giornateMap_last ms all k :
  startsWith k ms = true → k ≠ "" →
  giornateMap ms all !! k = last (filter (has_date k) all).
Proof.
  intros Hs Hk. induction all as [|g all IH] using rev_ind.
  - unfold giornateMap. simpl. by rewrite lookup_empty.
  - rewrite giornateMap_snoc, filter_snoc.
    destruct (decide (has_date k g)) as [Hg|Hg].
    + rewrite (in_month_has_date ms k g) by done.
      rewrite Hg, last_snoc. simpl. by rewrite lookup_insert_eq.
    + rewrite app_nil_r, <- IH.
      destruct (in_month ms g) eqn:Em; [|done].
      rewrite lookup_insert_ne; [done|].
      unfold in_month in Em. unfold has_date in Hg.
      destruct (Giornata.data g) as [| |d]; try done. simpl. congruence.
Qed.

Lemma set_licenza_idemp g : set_licenza (set_licenza g) = set_licenza g.
Proof. done. Qed.

Lemma overlay_fold k : ∀ ls (m : gmap string Giornata.t),
  foldl overlay_step m ls !! k
  = match List.find (fun l => bool_decide (template (Licenza.data_inizio l) = k)) ls,
          m !! k with
    | None, o => o
    | Some l, Some g => Some (set_licenza g)
    | Some l, None => Some (licenza_placeholder l)
    end.
Proof.
  induction ls as [|l ls IH]; intros m; simpl; [done|].
  rewrite IH. unfold overlay_step.
  case_bool_decide as Hk.
  - rewrite Hk.
    destruct (m !! k) as [g|] eqn:Em; rewrite lookup_insert_eq;
      by destruct (List.find _ ls).
  - destruct (m !! template (Licenza.data_inizio l));
      by rewrite lookup_insert_ne.
Qed.

Lemma find_approved_filtered ms k ls :
  startsWith k ms = true → k ≠ "" →
  List.find (fun l => bool_decide (template (Licenza.data_inizio l) = k))
            (List.filter (approved_in_month ms) ls)
  = find_approved ls k.
Proof.
  intros Hs Hk. unfold find_approved.
  induction ls as [|l ls IH]; simpl; [done|].
  unfold approved_in_month at 1, as_truthy.
  destruct (Licenza.data_inizio l) as [| |d] eqn:Ed; simpl;
    rewrite ?andb_false_r; try done.
  destruct (bool_decide (Licenza.stato l = str "Approvata")); simpl; [|exact IH].
  destruct (decide (d = k)) as [->|Hne].
  - rewrite (bool_decide_eq_false_2 (k = "")) by done.
    rewrite Hs. simpl. rewrite Ed. simpl. by rewrite !bool_decide_eq_true_2.
  - rewrite (bool_decide_eq_false_2 (str d = str k)) by congruence.
    destruct (bool_decide (d = "")); [exact IH|].
    destruct (startsWith d ms); simpl; [|exact IH].
    rewrite Ed. simpl. by rewrite bool_decide_eq_false_2.
Qed.

(** The record of a day cell: the last day of [allGiornate] with the
    date of the cell, so the month filter hides no day of the month
    shown; marked as leave when an approved leave starts on that date; and
    a placeholder of the first such leave when no day has the date. *)
Theorem calendar_cell_record
    (allGiornate : list Giornata.t) (allLicenze : list Licenza.t)
    (year month day : N) :
  giornateMap (monthStr year month) allGiornate !! cell_date year month day
  = last (filter (has_date (cell_date year month day)) allGiornate) ∧
  calendarMap (monthStr year month) allGiornate allLicenze !! cell_date year month day
  = match find_approved allLicenze (cell_date year month day),
          last (filter (has_date (cell_date year month day)) allGiornate) with
    | None, o => o
    | Some l, Some g => Some (set_licenza g)
    | Some l, None => Some (licenza_placeholder l)
    end.
Proof.
  pose proof (cell_date_monthStr year month day) as Hs.
  pose proof (cell_date_ne_nil year month day) as Hk.
  split; [by apply giornateMap_last|].
  unfold calendarMap.
  by rewrite overlay_fold, find_approved_filtered, giornateMap_last.
Qed.

(** *** A cell and the detail of its day *)

Lemma str_ltb_irrefl a : str_ltb a a = false.
Proof.
  induction a as [|x a IH]; simpl; [done|].
  by rewrite N.ltb_irrefl, N.eqb_refl, IH.
Qed.

Lemma str_ltb_asym a : ∀ b, str_ltb a b = true → str_ltb b a = false.
Proof.
  induction a as [|x a IH]; intros [|y b]; simpl; try done.
  intros [H|[H1 H2]%andb_true_iff]%orb_true_iff.
  - apply N.ltb_lt in H.
    rewrite (proj2 (N.ltb_ge _ _)) by lia.
    rewrite (proj2 (N.eqb_neq _ _)) by lia. done.
  - apply N.eqb_eq in H1. rewrite H1, N.ltb_irrefl, N.eqb_refl. simpl.
    by apply IH.
Qed.

Lemma N_of_ascii_inj x y : N_of_ascii x = N_of_ascii y → x = y.
Proof.
  intros H. by rewrite <- (ascii_N_embedding x), <- (ascii_N_embedding y), H.
Qed.

Lemma str_ltb_total a : ∀ b, str_ltb a b = false → str_ltb b a = false → a = b.
Proof.
  induction a as [|x a IH]; intros [|y b]; simpl; try done.
  intros [H1 H2]%orb_false_iff [H3 H4]%orb_false_iff.
  apply N.ltb_ge in H1, H3.
  assert (E : N_of_ascii x = N_of_ascii y) by lia.
  rewrite E, N.eqb_refl in H2, H4. simpl in H2, H4.
  f_equal; [by apply N_of_ascii_inj | by apply IH].
Qed.

(** [a < b] is [a <= b] and [a] is not [b]. *)
Lemma str_ltb_leb a b : str_ltb a b = true ↔ str_leb a b = true ∧ a ≠ b.
Proof.
  unfold str_leb. split.
  - intros H. split; [by rewrite (str_ltb_asym _ _ H)|].
    intros ->. by rewrite str_ltb_irrefl in H.
  - intros [H Hne]. apply negb_true_iff in H.
    destruct (str_ltb a b) eqn:E; [done|].
    by destruct Hne; apply str_ltb_total.
Qed.

Lemma find_by_date_head l d :
  find_by_date l d = head (filter (has_date d) l).
Proof.
  unfold find_by_date.
  induction l as [|g l IH]; [done|]. simpl. rewrite filter_cons.
  unfold has_date at 1.
  destruct (decide (Giornata.data g = str d)) as [E|E].
  - by rewrite bool_decide_eq_true_2.
  - by rewrite bool_decide_eq_false_2.
Qed.

Lemma last_None {A} (l : list A) : last l = None ↔ l = [].
Proof.
  split; [|by intros ->].
  destruct l as [|x l] using rev_ind; [done|]. by rewrite last_snoc.
Qed.

Lemma head_None {A} (l : list A) : head l = None ↔ l = [].
Proof. by destruct l. Qed.

(** The class of a cell with a record is never that of an empty past
    day. *)
Lemma dayClass_Some g isPast isManual :
  (dayClass (Some g) isPast isManual).1 ≠ "empty-add".
Proof.
  unfold dayClass.
  destruct (Giornata.is_licenza g), (is_assenza (head (Giornata.turni g))),
    (num_pos (Giornata.ore_straordinario g)),
    (num_pos (Giornata.ore_totali g)), isManual; by vm_compute.
Qed.

Lemma calendar_cell_class today manualEntries allGiornate allLicenze year month day :
  cell_class (calendar_cell today manualEntries allGiornate allLicenze year month day)
  = (dayClass (calendarMap (monthStr year month) allGiornate allLicenze
                 !! cell_date year month day)
              (str_ltb (cell_date year month day) today)
              (isManualEntry manualEntries (cell_date year month day))).1.
Proof. unfold calendar_cell. cbv zeta. by destruct (dayClass _ _ _). Qed.

(** A cell of the calendar invites to add a shift (class empty-add)
    exactly when the detail of its day is the empty state with the button
    to add one and the day is not today: for today the cell is plain and
    the detail still offers the button. *)
Theorem empty_add_cell_iff_add_button
    (inherited_text : string → string)
    (today : string) (manualEntries : entries Giornata.t)
    (allGiornate : list Giornata.t) (allLicenze : list Licenza.t)
    (year month day : N) :
  cell_class (calendar_cell today manualEntries allGiornate allLicenze year month day)
  = "empty-add"
  ↔ showDayDetail inherited_text today manualEntries allGiornate allLicenze
      (cell_date year month day) = detail_empty true
    ∧ cell_date year month day ≠ today.
Proof.
  pose proof (cell_date_monthStr year month day) as Hs.
  pose proof (cell_date_ne_nil year month day) as Hk.
  rewrite calendar_cell_class. unfold calendarMap, showDayDetail. cbv zeta.
  rewrite overlay_fold, find_approved_filtered, giornateMap_last by done.
  rewrite find_by_date_head.
  set (F := filter (has_date (cell_date year month day)) allGiornate).
  destruct (find_approved allLicenze (cell_date year month day)) as [l|].
  - split.
    + intros H. exfalso. destruct (last F); by apply dayClass_Some in H.
    + intros [H _]. by destruct (head F).
  - destruct F as [|g F'] using rev_ind.
    + simpl. destruct (str_ltb _ today) eqn:E.
      * split; [intros _|done]. apply str_ltb_leb in E as [-> ?]. done.
      * split; [done|]. intros [[= H] Hne].
        assert (str_ltb (cell_date year month day) today = true) as E'
          by (apply str_ltb_leb; done).
        congruence.
    + rewrite last_snoc. split.
      * intros H. by apply dayClass_Some in H.
      * intros [H _]. by destruct (F' ++ [g]) eqn:E; [destruct F'|].
Qed.

(** When no two days of [allGiornate] carry the same date, the record of
    a calendar cell before the leave is added is the record that the day
    detail looks up; with a date carried twice the cell holds the last
    record and the detail the first. *)
Theorem calendar_cell_same_as_detail
    (allGiornate : list Giornata.t) (year month day : N) :
  NoDup (date_strings allGiornate) →
  giornateMap (monthStr year month) allGiornate !! cell_date year month day
  = find_by_date allGiornate (cell_date year month day).
Proof.
  intros Hnd.
  rewrite giornateMap_last
    by (apply cell_date_monthStr || apply cell_date_ne_nil).
  rewrite find_by_date_head.
  generalize (cell_date year month day) as d. intros d.
  induction allGiornate as [|g l IH]; [done|].
  rewrite filter_cons.
  assert (Hl : NoDup (date_strings l)).
  { unfold date_strings in *. simpl in Hnd.
    destruct (Giornata.data g); [done|done|]. by apply NoDup_cons in Hnd as [_ ?]. }
  destruct (decide (has_date d g)) as [E|E]; [|by apply IH].
  unfold has_date in E.
  rewrite (filter_none (has_date d) l); [done|].
  intros x Hx Hd. unfold date_strings in Hnd. simpl in Hnd. rewrite E in Hnd.
  apply NoDup_cons in Hnd as [Hnot _]. apply Hnot.
  apply elem_of_date_strings. by exists x.
Qed.

Lemma calendar_cell_same_as_detail_example :
  giornateMap (monthStr 2025 2) [feed_0301; manual_0302] !! cell_date 2025 2 2
  = find_by_date [feed_0301; manual_0302] (cell_date 2025 2 2).
Proof.
  apply (calendar_cell_same_as_detail [feed_0301; manual_0302] 2025 2 2).
  apply (bool_decide_unpack _). vm_compute. exact I.
Defined.

(** *** The day detail after a reload *)


Lemma Permutation_filter_nil {A} (P : A → Prop) `{!∀ x, Decision (P x)}
    (l k : list A) :
  l ≡ₚ k → filter P k = [] → filter P l = [].
Proof.
  intros Hp Hk. apply Permutation_nil_r. rewrite <- Hk.
  by apply filter_Permutation.
Qed.



(** ** Years of service and calendar navigation *)

(** [anniServizio] counts the anniversaries of the hiring date that have
    come: the [n]-th anniversary is today or earlier exactly when [n] is
    at most [anniServizio]. *)
Theorem anniServizio_anniversaries (oggi assunzione : date_fields) (n : Z) :
  on_or_before (anniversary n assunzione) oggi ↔ n ≤ anniServizio oggi assunzione.
Proof.
  unfold on_or_before, anniversary, anniServizio. simpl.
  destruct (Z.ltb_spec (getMonth oggi) (getMonth assunzione));
    destruct (Z.eqb_spec (getMonth oggi) (getMonth assunzione));
    destruct (Z.ltb_spec (getDate oggi) (getDate assunzione)); simpl; lia.
Qed.

Lemma Date_setMonth_within d month :
  getDate d ≤ 28 →
  Date_setMonth d month
  = mk_date (getFullYear d + month / 12) (month mod 12) (getDate d).
Proof.
  intros Hd. unfold Date_setMonth. cbv zeta.
  pose proof (days_in_month_bounds (getFullYear d + month / 12) (month mod 12 + 1)).
  destruct (Z.leb_spec (getDate d)
              (days_in_month (getFullYear d + month / 12) (month mod 12 + 1)));
    [done|lia].
Qed.

(** From a date whose day of the month is at most 28 the two calendar
    buttons move by exactly one month, the year following at the turn of
    the year, and each undoes the other.  [loadData] with a year sets the
    day to 1; on the first load the day is today's. *)
Theorem calendar_navigation (currentCalendarMonth : date_fields) :
  0 ≤ getMonth currentCalendarMonth ≤ 11 →
  getDate currentCalendarMonth ≤ 28 →
  let y := getFullYear currentCalendarMonth in
  let m := getMonth currentCalendarMonth in
  let d := getDate currentCalendarMonth in
  nextMonth currentCalendarMonth
  = (if m =? 11 then mk_date (y + 1) 0 d else mk_date y (m + 1) d) ∧
  prevMonth currentCalendarMonth
  = (if m =? 0 then mk_date (y - 1) 11 d else mk_date y (m - 1) d) ∧
  prevMonth (nextMonth currentCalendarMonth) = currentCalendarMonth ∧
  nextMonth (prevMonth currentCalendarMonth) = currentCalendarMonth.
Proof.
  intros Hm Hd y m d. destruct currentCalendarMonth as [y0 m0 d0].
  simpl in *. subst y m d.
  assert (Hn : nextMonth (mk_date y0 m0 d0)
               = if m0 =? 11 then mk_date (y0 + 1) 0 d0 else mk_date y0 (m0 + 1) d0).
  { unfold nextMonth. rewrite Date_setMonth_within by done. simpl.
    destruct (Z.eqb_spec m0 11); f_equal; Z.div_mod_to_equations; lia. }
  assert (Hp : prevMonth (mk_date y0 m0 d0)
               = if m0 =? 0 then mk_date (y0 - 1) 11 d0 else mk_date y0 (m0 - 1) d0).
  { unfold prevMonth. rewrite Date_setMonth_within by done. simpl.
    destruct (Z.eqb_spec m0 0); f_equal; Z.div_mod_to_equations; lia. }
  split; [done|]. split; [done|]. rewrite Hn, Hp. split.
  - unfold prevMonth.
    destruct (Z.eqb_spec m0 11); rewrite Date_setMonth_within by done; simpl;
      f_equal; Z.div_mod_to_equations; lia.
  - unfold nextMonth.
    destruct (Z.eqb_spec m0 0); rewrite Date_setMonth_within by done; simpl;
      f_equal; Z.div_mod_to_equations; lia.
Qed.

Lemma calendar_navigation_example :
  nextMonth (mk_date 2025 11 1) = mk_date 2026 0 1 ∧
  prevMonth (mk_date 2025 11 1) = mk_date 2025 10 1 ∧
  prevMonth (nextMonth (mk_date 2025 11 1)) = mk_date 2025 11 1 ∧
  nextMonth (prevMonth (mk_date 2025 11 1)) = mk_date 2025 11 1.
Proof. apply (calendar_navigation (mk_date 2025 11 1)); simpl; lia. Defined.

(** On the 31st of January the button for the next month leads to March,
    and on the 31st of March the button for the previous month stays in
    March. *)
Example nextMonth_skips_february :
  nextMonth (mk_date 2025 0 31) = mk_date 2025 2 3 ∧
  prevMonth (mk_date 2025 2 31) = mk_date 2025 2 3.
Proof. split; reflexivity. Qed.

(** ** A saved manual entry on the screen *)










